(** * shared-yodl: preferences validation and its text serializer

    A shallow embedding of
      - [src/constants/index.ts]  (SUPPORTED_CHAINS, CHAIN_SHORT_NAMES),
      - [src/utils/index.ts]      (stringUtils, chainIdToShortName,
                                   resolveChainIdOrShortName, isValidNumber),
      - [src/validation/preferences.validation.ts]
                                  (TokenConfigSchema, ChainConfigSchema,
                                   convertPreferencesToText, PreferencesSchema),
    over a small model of the JavaScript values the code manipulates and of
    the zod 3 combinators the schemas are written with. *)

From Stdlib Require Import String Ascii List ZArith QArith Bool Lia Btauto DecimalString.
Import ListNotations.
Local Open Scope list_scope.
Local Open Scope string_scope.
Set Warnings "-register-all".

(* ================================================================== *)
(** * The host language: JavaScript values *)
(* ================================================================== *)

Module Js.

(** ** Numbers

    The code never computes with numbers: it parses them, compares them
    with [===] and [<], and prints them.  A number is therefore modelled
    by the value it denotes.  [-0] is identified with [+0]: no operation
    used by the code tells them apart ([-0 === 0], [-0 < 0] is false, and
    both print as [0]). *)
Inductive number : Type :=
| NaN
| Infinity (negative : bool)
| Finite (q : Q).

Definition int (z : Z) : number := Finite (inject_Z z).

(** The global [isNaN] on a number. *)
Definition isNaN (n : number) : bool :=
  match n with NaN => true | _ => false end.

(** [a === b] on two numbers. *)
Definition num_eqb (a b : number) : bool :=
  match a, b with
  | Finite p, Finite q => Qeq_bool p q
  | Infinity s, Infinity t => Bool.eqb s t
  | _, _ => false
  end.

(** [a < b] on two numbers. *)
Definition num_ltb (a b : number) : bool :=
  match a, b with
  | NaN, _ | _, NaN => false
  | Finite p, Finite q => negb (Qle_bool q p)
  | Finite _, Infinity neg => negb neg
  | Infinity neg, Finite _ => neg
  | Infinity s, Infinity t => s && negb t
  end.

(** ** Values

    Strings are sequences of code units; the model covers the code units
    below 256, one per [ascii].  Objects are plain data objects: their own
    enumerable string-keyed properties, in property order, on top of
    [Object.prototype].  [VFun] stands for a built-in function object: a
    function of [Object.prototype] under its name, or [Object] itself
    (which is [Object.prototype.constructor]). *)
Inductive value : Type :=
| VUndefined
| VNull
| VBool (b : bool)
| VNum (n : number)
| VStr (s : string)
| VArr (elems : list value)
| VObj (props : list (string * value))
| VFun (name : string).

Definition object : Type := list (string * value).

Definition is_undefined (v : value) : bool :=
  match v with VUndefined => true | _ => false end.

(** [v === n] for a number [n]. *)
Definition strict_eq_num (v : value) (n : number) : bool :=
  match v with VNum m => num_eqb m n | _ => false end.

(** [a ?? b]. *)
Definition nullish (a b : value) : value :=
  match a with VUndefined | VNull => b | _ => a end.

(** ToBoolean. *)
Definition truthy (v : value) : bool :=
  match v with
  | VUndefined | VNull => false
  | VBool b => b
  | VNum n => negb (isNaN n || num_eqb n (int 0))
  | VStr s => negb (s =? "")
  | VArr _ | VObj _ | VFun _ => true
  end.

(** ** Strings *)

(** WhiteSpace and LineTerminator code units below 256: TAB, LF, VT, FF,
    CR, SP and NBSP. *)
Definition isWhiteSpace (c : ascii) : bool :=
  let n := nat_of_ascii c in
  ((9 <=? n) && (n <=? 13) || (n =? 32) || (n =? 160))%nat.

Fixpoint trimStart (s : string) : string :=
  match s with
  | String c s' => if isWhiteSpace c then trimStart s' else s
  | EmptyString => EmptyString
  end.

Fixpoint trimEnd (s : string) : string :=
  match s with
  | EmptyString => EmptyString
  | String c s' =>
      match trimEnd s' with
      | EmptyString => if isWhiteSpace c then EmptyString else String c EmptyString
      | t => String c t
      end
  end.

(** [s.trim()] *)
Definition trim (s : string) : string := trimEnd (trimStart s).

(** [s.split(',')] *)
Fixpoint split_comma (s : string) : list string :=
  match s with
  | EmptyString => [EmptyString]
  | String c s' =>
      if Ascii.eqb c ","%char then EmptyString :: split_comma s'
      else match split_comma s' with
           | x :: xs => String c x :: xs
           | [] => [String c EmptyString]
           end
  end.

(** [s.toLowerCase()] on code units below 256: A-Z and the capital
    letters of Latin-1 (0xC0-0xDE but the multiplication sign 0xD7). *)
Definition lower_char (c : ascii) : ascii :=
  let n := nat_of_ascii c in
  if ((65 <=? n) && (n <=? 90)
      || (192 <=? n) && (n <=? 222) && negb (n =? 215))%nat
  then ascii_of_nat (n + 32) else c.

Fixpoint toLowerCase (s : string) : string :=
  match s with
  | EmptyString => EmptyString
  | String c s' => String (lower_char c) (toLowerCase s')
  end.

(** [s.startsWith(p)] *)
Definition startsWith (s p : string) : bool := String.prefix p s.

(** ** Objects *)

Fixpoint own (k : string) (o : object) : option value :=
  match o with
  | [] => None
  | (k', v) :: o' => if k' =? k then Some v else own k o'
  end.

Definition hasOwn (k : string) (o : object) : bool :=
  match own k o with Some _ => true | None => false end.

(** [Object.keys(o)], also the keys a [for (k in o)] loop visits. *)
Definition keys (o : object) : list string := map fst o.

(** The properties every plain object inherits from [Object.prototype];
    [__proto__] reads as the prototype itself, an object without own
    enumerable properties. *)
Definition Object_prototype : object :=
  [ ("constructor", VFun "Object");
    ("__defineGetter__", VFun "__defineGetter__");
    ("__defineSetter__", VFun "__defineSetter__");
    ("hasOwnProperty", VFun "hasOwnProperty");
    ("__lookupGetter__", VFun "__lookupGetter__");
    ("__lookupSetter__", VFun "__lookupSetter__");
    ("isPrototypeOf", VFun "isPrototypeOf");
    ("propertyIsEnumerable", VFun "propertyIsEnumerable");
    ("toString", VFun "toString");
    ("valueOf", VFun "valueOf");
    ("__proto__", VObj []);
    ("toLocaleString", VFun "toLocaleString") ].

(** [k in o] *)
Definition has (o : object) (k : string) : bool :=
  hasOwn k o || hasOwn k Object_prototype.

(** [o[k]] *)
Definition get (o : object) (k : string) : value :=
  match own k o with
  | Some v => v
  | None => match own k Object_prototype with
            | Some v => v
            | None => VUndefined
            end
  end.

(** Property order: array indices (canonical numeric strings below
    2^32 - 1) come first, in ascending order, then the other keys in the
    order they were created. *)
Definition digit_of (c : ascii) : option N :=
  let n := nat_of_ascii c in
  if ((48 <=? n) && (n <=? 57))%nat then Some (N.of_nat (n - 48)) else None.

Fixpoint digits_value (acc : N) (s : string) : option N :=
  match s with
  | EmptyString => Some acc
  | String c s' =>
      match digit_of c with
      | Some d => digits_value (acc * 10 + d)%N s'
      | None => None
      end
  end.

Definition array_index (k : string) : option N :=
  match k with
  | EmptyString => None
  | String c rest =>
      if Ascii.eqb c "0"%char && negb (rest =? "") then None
      else match digits_value 0%N k with
           | Some n => if (n <? 4294967295)%N then Some n else None
           | None => None
           end
  end.

Fixpoint replace (k : string) (v : value) (o : object) : object :=
  match o with
  | [] => []
  | (k', v') :: o' =>
      if k' =? k then (k', v) :: o' else (k', v') :: replace k v o'
  end.

Fixpoint insert_index (n : N) (k : string) (v : value) (o : object) : object :=
  match o with
  | [] => [(k, v)]
  | (k', v') :: o' =>
      match array_index k' with
      | Some n' =>
          if (n' <? n)%N then (k', v') :: insert_index n k v o'
          else (k, v) :: o
      | None => (k, v) :: o
      end
  end.

(** CreateDataProperty: what an object literal, a spread and a rest
    pattern do for each property. *)
Definition define (k : string) (v : value) (o : object) : object :=
  if hasOwn k o then replace k v o
  else match array_index k with
       | Some n => insert_index n k v o
       | None => (o ++ [(k, v)])%list
       end.

(** [o[k] = v] on a plain object.  Assigning to a [__proto__] that is not
    an own property runs the setter of [Object.prototype]: it changes the
    prototype, and no own property. *)
Definition assign (k : string) (v : value) (o : object) : object :=
  if negb (hasOwn k o) && (k =? "__proto__") then o else define k v o.

(** [delete o[k]] *)
Definition delete (k : string) (o : object) : object :=
  filter (fun kv => negb (fst kv =? k)) o.

(** [Object.keys(o).forEach(k => { if (o[k] === undefined) delete o[k] })] *)
Definition delete_undefined (o : object) : object :=
  fold_left (fun acc k => if is_undefined (get acc k) then delete k acc else acc)
            (keys o) o.

(** [{...o}] appended to an object literal under construction. *)
Definition spread (o : object) (into : object) : object :=
  fold_left (fun acc kv => define (fst kv) (snd kv) acc) o into.

(** [const {k1, ..., kn, ...rest} = o] *)
Definition rest (excluded : list string) (o : object) : object :=
  spread (filter (fun kv => negb (existsb (String.eqb (fst kv)) excluded)) o) [].

(** ** Exceptions

    A call either returns or throws.  The modelled code raises a
    TypeError when it calls a method that the receiver does not have, or
    converts to a string an object that has no primitive value, and a
    RangeError when such a conversion calls itself until the stack
    overflows. *)
Inductive exception : Type := TypeError | RangeError.

Inductive completion (A : Type) : Type :=
| Return (a : A)
| Throw (e : exception).
Arguments Return {A} a.
Arguments Throw {A} e.

(** Sequencing: what follows a call that throws is not evaluated. *)
Definition bind {A B : Type} (c : completion A) (k : A -> completion B)
  : completion B :=
  match c with
  | Return a => k a
  | Throw e => Throw e
  end.

Notation "x <- c ;; k" := (bind c (fun x => k))
  (at level 61, c at next level, right associativity).

(** ** What the runtime provides

    The functions of the runtime that the code calls and that are not
    modelled here: the results below hold whatever they compute.
    [console.error] only logs and is left out. *)
Class Host : Type := {
  (** [Number(s)] for a string [s] *)
  Number_of_string : string -> number;
  (** [String(n)] for a finite number [n] *)
  Number_toString : number -> string;
  (** [JSON.parse(s)]; [None] when it throws a SyntaxError *)
  JSON_parse : string -> option value;
  (** whether [new URL(s)] returns rather than throws *)
  URL_parses : string -> bool
}.

(** ** Conversion to a string

    [f.call(o)]: the built-in function [f] called without arguments as a
    method of the plain object [o].
    - [Object.prototype.toString] answers ["[object Object]"];
    - [valueOf] answers [o] itself, and [Object()] a new empty object;
    - [hasOwnProperty] and [propertyIsEnumerable] read their missing
      argument as the key ["undefined"]; [isPrototypeOf] answers [false];
    - [__lookupGetter__] and [__lookupSetter__] find no accessor;
    - [__defineGetter__] and [__defineSetter__] throw a TypeError: the
      accessor they are given is no function;
    - [toLocaleString] calls [o.toString()], see [call].
    A name that stands for no function is not callable: TypeError. *)
Definition call_builtin (f : string) (o : object) : completion value :=
  if f =? "toString" then Return (VStr "[object Object]")
  else if f =? "valueOf" then Return (VObj o)
  else if f =? "Object" then Return (VObj [])
  else if (f =? "hasOwnProperty") || (f =? "propertyIsEnumerable")
  then Return (VBool (hasOwn "undefined" o))
  else if f =? "isPrototypeOf" then Return (VBool false)
  else if (f =? "__lookupGetter__") || (f =? "__lookupSetter__")
  then Return VUndefined
  else Throw TypeError.

(** [Object.prototype.toLocaleString] is [this.toString()]: when it is
    itself the [toString] of [o], the call never ends and the stack
    overflows. *)
Definition call (f : string) (o : object) : completion value :=
  if f =? "toLocaleString" then
    match get o "toString" with
    | VFun g => if g =? "toLocaleString" then Throw RangeError else call_builtin g o
    | _ => Throw TypeError
    end
  else call_builtin f o.

(** An Object, for the language: not a primitive value. *)
Definition is_object (v : value) : bool :=
  match v with VArr _ | VObj _ | VFun _ => true | _ => false end.

(** One step of OrdinaryToPrimitive: the method [name] of [o], when it
    is callable and answers a primitive value. *)
Definition try_method (o : object) (name : string) (otherwise : completion value)
  : completion value :=
  match get o name with
  | VFun f => result <- call f o ;;
              if is_object result then otherwise else Return result
  | _ => otherwise
  end.

(** OrdinaryToPrimitive with hint string: [toString], then [valueOf],
    then a TypeError. *)
Definition OrdinaryToPrimitive (o : object) : completion value :=
  try_method o "toString" (try_method o "valueOf" (Throw TypeError)).

(** [a.join(',')] over the conversion [f] of an element: the elements
    [undefined] and [null] give the empty string, and the first
    conversion that throws ends the call. *)
Definition join_elements (f : value -> completion string)
  : list value -> completion (list string) :=
  fix elements (l : list value) : completion (list string) :=
    match l with
    | [] => Return []
    | x :: l' =>
        s <- match x with
             | VUndefined | VNull => Return EmptyString
             | _ => f x
             end ;;
        ss <- elements l' ;;
        Return (s :: ss)
    end.

Section Conversions.
Context {host : Host}.

(** ToString of a primitive value. *)
Definition ToString_primitive (v : value) : completion string :=
  match v with
  | VUndefined => Return "undefined"
  | VNull => Return "null"
  | VBool b => Return (if b then "true" else "false")
  | VNum NaN => Return "NaN"
  | VNum (Infinity neg) => Return (if neg then "-Infinity" else "Infinity")
  | VNum n => Return (Number_toString n)
  | VStr s => Return s
  | VArr _ | VObj _ | VFun _ => Throw TypeError
  end.

(** ToString, as [Array.prototype.join] applies it to an element.  An
    array is converted by [Array.prototype.toString], which is [join];
    a function by [Function.prototype.toString]; a plain object by
    OrdinaryToPrimitive, so that an object whose own [toString] and
    [valueOf] answer no primitive value throws a TypeError. *)
Fixpoint ToString (v : value) : completion string :=
  match v with
  | VArr l => ss <- join_elements ToString l ;; Return (String.concat "," ss)
  | VObj o => primitive <- OrdinaryToPrimitive o ;; ToString_primitive primitive
  | VFun name => Return ("function " ++ name ++ "() { [native code] }")
  | _ => ToString_primitive v
  end.

(** [a.join(',')] *)
Definition join (a : list value) : completion string := ToString (VArr a).

Definition dquote : ascii := ascii_of_nat 34.

Definition hex_digit (n : nat) : ascii :=
  match String.get n "0123456789abcdef" with Some c => c | None => "0"%char end.

(** QuoteJSONString, one code unit at a time. *)
Definition quote_unit (c : ascii) : string :=
  let n := nat_of_ascii c in
  if (n =? 8)%nat then "\b"
  else if (n =? 9)%nat then "\t"
  else if (n =? 10)%nat then "\n"
  else if (n =? 12)%nat then "\f"
  else if (n =? 13)%nat then "\r"
  else if (n =? 34)%nat then String "\"%char (String dquote EmptyString)
  else if (n =? 92)%nat then "\\"
  else if (n <? 32)%nat then
    "\u00" ++ String (hex_digit (n / 16)) (String (hex_digit (n mod 16)) EmptyString)
  else String c EmptyString.

Fixpoint quote_units (s : string) : string :=
  match s with
  | EmptyString => EmptyString
  | String c s' => quote_unit c ++ quote_units s'
  end.

Definition QuoteJSONString (s : string) : string :=
  String dquote (quote_units s ++ String dquote EmptyString).

(** SerializeJSONProperty: [None] is the [undefined] that makes
    [JSON.stringify] skip a property (and print [null] in an array). *)
Fixpoint SerializeJSONProperty (v : value) : option string :=
  match v with
  | VUndefined | VFun _ => None
  | VNull => Some "null"
  | VBool b => Some (if b then "true" else "false")
  | VNum (Finite q) => Some (Number_toString (Finite q))
  | VNum _ => Some "null"
  | VStr s => Some (QuoteJSONString s)
  | VArr l =>
      Some ("[" ++ String.concat ","
        ((fix elements (l : list value) : list string :=
            match l with
            | [] => []
            | x :: l' =>
                match SerializeJSONProperty x with
                | Some s => s
                | None => "null"
                end :: elements l'
            end) l) ++ "]")
  | VObj o =>
      Some ("{" ++ String.concat ","
        ((fix members (o : list (string * value)) : list string :=
            match o with
            | [] => []
            | (k, x) :: o' =>
                match SerializeJSONProperty x with
                | Some s => (QuoteJSONString k ++ ":" ++ s) :: members o'
                | None => members o'
                end
            end) o) ++ "}")
  end.

(** [JSON.stringify(v)] *)
Definition JSON_stringify (v : value) : value :=
  match SerializeJSONProperty v with
  | Some s => VStr s
  | None => VUndefined
  end.

End Conversions.

(** A text in which the apostrophe stands for the double quote. *)
Fixpoint quoted (s : string) : string :=
  match s with
  | EmptyString => EmptyString
  | String c s' => String (if Ascii.eqb c "'"%char then dquote else c) (quoted s')
  end.

End Js.

Import Js.

(* ================================================================== *)
(** * The zod combinators the schemas use (zod 3, synchronous parsing) *)
(* ================================================================== *)

Module Zod.

(** What [schema.parse(input)] does: it returns the parsed data or throws
    a [ZodError].  The issues a [ZodError] carries are not modelled. *)
Inductive outcome : Type :=
| Ok (data : value)
| ZodError.

Definition schema : Type := value -> outcome.

Definition success (r : outcome) : bool :=
  match r with Ok _ => true | ZodError => false end.

Section Combinators.
Context {host : Host}.

(** [z.string()] *)
Definition string_ : schema :=
  fun input => match input with VStr _ => Ok input | _ => ZodError end.

(** [z.number()]: a value of type number that is not NaN. *)
Definition number_ : schema :=
  fun input =>
    match input with
    | VNum n => if isNaN n then ZodError else Ok input
    | _ => ZodError
    end.

(** [z.unknown()] *)
Definition unknown : schema := Ok.

(** A check added to a schema: the data is kept, the parse fails when
    the check does. *)
Definition check (p : value -> bool) (s : schema) : schema :=
  fun input =>
    match s input with
    | Ok data => if p data then Ok data else ZodError
    | ZodError => ZodError
    end.

(** [.url()] on a string schema: [new URL(data)] must not throw. *)
Definition url : schema -> schema :=
  check (fun data => match data with VStr s => URL_parses s | _ => false end).

(** [.refine(p)] *)
Definition refine (p : value -> bool) : schema -> schema := check p.

(** [.nonnegative()] on a number schema: fails when [data < 0]. *)
Definition nonnegative : schema -> schema :=
  check (fun data =>
           match data with VNum n => negb (num_ltb n (int 0)) | _ => false end).

(** [.max(n)] on an array schema: fails when [data.length > n]. *)
Definition max (n : nat) : schema -> schema :=
  check (fun data =>
           match data with VArr l => (length l <=? n)%nat | _ => false end).

Fixpoint parse_elements (element : schema) (l : list value) : option (list value) :=
  match l with
  | [] => Some []
  | x :: l' =>
      match element x, parse_elements element l' with
      | Ok y, Some ys => Some (y :: ys)
      | _, _ => None
      end
  end.

(** [z.array(element)] *)
Definition array (element : schema) : schema :=
  fun input =>
    match input with
    | VArr l =>
        match parse_elements element l with
        | Some l' => Ok (VArr l')
        | None => ZodError
        end
    | _ => ZodError
    end.

(** [z.union([a, b])]: the first option that accepts the input. *)
Definition union (a b : schema) : schema :=
  fun input => match a input with Ok data => Ok data | ZodError => b input end.

(** [.optional()] *)
Definition optional (s : schema) : schema :=
  fun input => match input with VUndefined => Ok VUndefined | _ => s input end.

(** [z.preprocess(f, s)] *)
Definition preprocess (f : value -> value) (s : schema) : schema :=
  fun input => s (f input).

(** [s.transform(f)]: [f] runs on valid data only. *)
Definition transform (s : schema) (f : value -> value) : schema :=
  fun input =>
    match s input with
    | Ok data => Ok (f data)
    | ZodError => ZodError
    end.

(** ParseStatus.mergeObjectSync: a key is set when it is not [__proto__]
    and its value is not undefined or the key is in the input. *)
Fixpoint mergeObject (pairs : list (string * outcome * bool)) (finalObject : object)
  : outcome :=
  match pairs with
  | [] => Ok (VObj finalObject)
  | (key, parsed, alwaysSet) :: pairs' =>
      match parsed with
      | ZodError => ZodError
      | Ok v =>
          mergeObject pairs'
            (if negb (key =? "__proto__") && (negb (is_undefined v) || alwaysSet)
             then assign key v finalObject
             else finalObject)
      end
  end.

(** [z.object(shape)], and [z.object(shape).catchall(c)] when [catchall]
    is [Some c].  Without a catchall the keys outside the shape are
    stripped. *)
Definition object_ (shape : list (string * schema)) (catchall : option schema)
  : schema :=
  fun input =>
    match input with
    | VObj data =>
        let shapeKeys := map fst shape in
        let parse_key s key := (key, s (get data key), has data key) in
        mergeObject
          (map (fun ks => parse_key (snd ks) (fst ks)) shape
           ++ match catchall with
              | Some c =>
                  map (parse_key c)
                    (filter (fun key => negb (existsb (String.eqb key) shapeKeys))
                            (keys data))
              | None => []
              end)%list
          []
    | _ => ZodError
    end.

End Combinators.

End Zod.

(* ================================================================== *)
(** * src/constants/index.ts *)
(* ================================================================== *)

Module Constants.

Record Chain : Type := { id : number }.

(** Modelled from the spec: the chain objects imported from [viem/chains]
    are not part of the repository; their ids are the ones the spec lists
    (mainnet 1, polygon 137, arbitrum 42161, optimism 10, gnosis 100,
    base 8453).  Only [id] is read. *)
Definition mainnet : Chain := {| id := int 1 |}.
Definition polygon : Chain := {| id := int 137 |}.
Definition arbitrum : Chain := {| id := int 42161 |}.
Definition optimism : Chain := {| id := int 10 |}.
Definition gnosis : Chain := {| id := int 100 |}.
Definition base : Chain := {| id := int 8453 |}.

Definition SUPPORTED_CHAINS : list Chain :=
  [mainnet; polygon; arbitrum; optimism; gnosis; base].

Definition CHAIN_SHORT_NAMES : object :=
  [ ("eth", VNum mainnet.(id));
    ("oeth", VNum optimism.(id));
    ("op", VNum optimism.(id));
    ("pol", VNum polygon.(id));
    ("gno", VNum gnosis.(id));
    ("arb1", VNum arbitrum.(id));
    ("base", VNum base.(id)) ].

End Constants.

(* ================================================================== *)
(** * src/utils/index.ts *)
(* ================================================================== *)

Module Utils.
Import Constants.

Section Utils.
Context {host : Host}.

(** [stringUtils.arrayToCommaString] *)
Definition arrayToCommaString (array : list value) : completion string := join array.

(** [stringUtils.commaStringToArray] *)
Definition commaStringToArray (array : string) : list string :=
  map trim (split_comma array).

(** [Object.entries(CHAIN_SHORT_NAMES).find(([_, id]) => id === chainId)?.[0]] *)
Definition chainIdToShortName (chainId : value) : value :=
  match
    find (fun entry =>
            match snd entry with
            | VNum id => strict_eq_num chainId id
            | _ => false
            end) CHAIN_SHORT_NAMES
  with
  | Some entry => VStr (fst entry)
  | None => VUndefined
  end.

Definition isValidNumber (value : value) : bool :=
  Zod.success (Zod.number_ value).

Definition resolveChainIdOrShortName (chainIdOrShortName : string) : value :=
  if isValidNumber (VStr chainIdOrShortName) then
    VNum (Number_of_string chainIdOrShortName)
  else
    let key := toLowerCase chainIdOrShortName in
    if has CHAIN_SHORT_NAMES key then get CHAIN_SHORT_NAMES key
    else VUndefined.

End Utils.
End Utils.

(* ================================================================== *)
(** * src/validation/preferences.validation.ts *)
(* ================================================================== *)

Module Validation.
Import Constants Utils.

Section Validation.
Context {host : Host}.

Definition elements (v : value) : list value :=
  match v with VArr l => l | _ => [] end.

Definition props (v : value) : object :=
  match v with VObj o => o | _ => [] end.

(** The preprocess callback of [TokenConfigSchema]. *)
Definition tokenItems (input : value) : value :=
  match input with
  | VStr s => VArr (map VStr (commaStringToArray s))
  | _ => input
  end.

Definition TokenConfigSchema : Zod.schema :=
  Zod.preprocess tokenItems (Zod.array Zod.string_).

(** The preprocess callback of [ChainConfigSchema]. *)
Definition chainItems (input : value) : value :=
  match input with
  | VArr _ => input
  | VStr s =>
      VArr (map (fun item =>
                   let num := Number_of_string item in
                   if isNaN num then VStr item else VNum num)
                (commaStringToArray s))
  | _ => input
  end.

(** The [.map] callback of [ChainConfigSchema]. *)
Definition resolveChain (chain : value) : value :=
  match chain with
  | VStr s => resolveChainIdOrShortName s
  | _ => chain
  end.

(** The [.filter] callback of [ChainConfigSchema]:
    [id !== 0 && id !== undefined && SUPPORTED_CHAINS.some(chain => chain.id === id)] *)
Definition supported (id : value) : bool :=
  negb (strict_eq_num id (int 0))
  && negb (is_undefined id)
  && existsb (fun chain => strict_eq_num id chain.(Constants.id)) SUPPORTED_CHAINS.

Definition ChainConfigSchema : Zod.schema :=
  Zod.preprocess chainItems
    (Zod.transform
       (Zod.array (Zod.union Zod.string_ Zod.number_))
       (fun chains => VArr (filter supported (map resolveChain (elements chains))))).

(** [convertPreferencesToText], up to the object handed to
    [JSON.stringify]. *)
Definition formatPreferences (preferences : object) : completion object :=
  processedChains <-
    match get preferences "chainIds" with
    | VUndefined | VNull => Return VUndefined
    | VArr chainIds => Return (VArr (filter truthy (map chainIdToShortName chainIds)))
    | _ => Throw TypeError
    end ;;
  tokens <-
    match get preferences "tokenSymbols" with
    | VArr tokenSymbols =>
        joined <- arrayToCommaString tokenSymbols ;; Return (VStr joined)
    | tokenSymbols => if truthy tokenSymbols then Throw TypeError else Return VUndefined
    end ;;
  chains <-
    match processedChains with
    | VArr (c :: cs) => joined <- arrayToCommaString (c :: cs) ;; Return (VStr joined)
    | _ => Return VUndefined
    end ;;
  let formattedPreferences : object :=
    [("tokens", tokens); ("chains", chains)] in
  let formattedPreferences :=
    fold_left
      (fun formatted key =>
         if negb (key =? "chainIds") && negb (key =? "tokenSymbols")
         then assign key (get preferences key) formatted
         else formatted)
      (keys preferences) formattedPreferences in
  Return (delete_undefined formattedPreferences).

Definition convertPreferencesToText (preferences : object) : completion value :=
  match formatPreferences preferences with
  | Return formattedPreferences => Return (JSON_stringify (VObj formattedPreferences))
  | Throw e => Throw e
  end.

(** The refinement of a webhook: [url => url.startsWith('https://')] *)
Definition isSecureUrl (url : value) : bool :=
  match url with
  | VStr s => startsWith s "https://"
  | _ => false
  end.

Definition PreferencesShape : list (string * Zod.schema) :=
  [ ("chainIds", Zod.optional ChainConfigSchema);
    ("tokenSymbols", Zod.optional TokenConfigSchema);
    ("chains", Zod.optional ChainConfigSchema);
    ("tokens", Zod.optional TokenConfigSchema);
    ("redirectUrl", Zod.optional (Zod.url Zod.string_));
    ("currency", Zod.optional Zod.string_);
    ("amount", Zod.optional (Zod.nonnegative Zod.number_));
    ("webhooks",
      Zod.optional
        (Zod.max 15 (Zod.array (Zod.refine isSecureUrl (Zod.url Zod.string_)))));
    ("og",
      Zod.optional
        (Zod.object_ [("baseUrl", Zod.optional (Zod.url Zod.string_))] None)) ].

(** The [.transform(data => ...)] of [PreferencesSchema]. *)
Definition mergePreferences (data : value) : value :=
  let data := props data in
  let chainIds := nullish (get data "chains") (nullish (get data "chainIds") (VArr [])) in
  let tokenSymbols :=
    nullish (get data "tokens") (nullish (get data "tokenSymbols") (VArr [])) in
  let otherProps :=
    rest ["chains"; "tokens"; "chainIds"; "tokenSymbols"; "redirectUrl";
          "currency"; "amount"; "webhooks"; "og"] data in
  let result :=
    spread otherProps
      (spread [ ("chainIds", chainIds);
                ("tokenSymbols", tokenSymbols);
                ("redirectUrl", get data "redirectUrl");
                ("currency", get data "currency");
                ("amount", get data "amount");
                ("webhooks", get data "webhooks");
                ("og", get data "og") ] []) in
  VObj (delete_undefined result).

(** The preprocessing step of [PreferencesSchema]: a string that is not
    blank is decoded as JSON, and [{}] stands in when decoding throws. *)
Definition parseInput (input : value) : value :=
  match input with
  | VStr s =>
      if negb (trim s =? "") then
        match JSON_parse s with
        | Some parsed => parsed
        | None => VObj []
        end
      else input
  | _ => input
  end.

Definition PreferencesSchema : Zod.schema :=
  Zod.preprocess parseInput
    (Zod.transform
       (Zod.object_ PreferencesShape (Some Zod.unknown))
       mergePreferences).

End Validation.
End Validation.

(* ================================================================== *)
(** * A host for closed examples *)
(* ================================================================== *)

Module Example.

(** Each function answers as Node does on the inputs named in its
    comment, which are the only ones the examples below give it. *)

(** Exact on blank strings (0), on strings of at most 15 decimal digits,
    and on strings that are no numeric literal at all (NaN), the chain
    short names among them. *)
Definition Number_of_string (s : string) : number :=
  let t := trim s in
  if t =? "" then int 0
  else match digits_value 0%N t with
       | Some n => int (Z.of_N n)
       | None => NaN
       end.

(** Exact on integers below 10^21 in absolute value. *)
Definition Number_toString (n : number) : string :=
  match n with
  | Finite q =>
      if (Qden q =? 1)%positive then DecimalString.NilZero.string_of_int (Z.to_int (Qnum q))
      else ""
  | _ => ""
  end.

(** The JSON texts of the test suite and of the specification, and
    [None] for the other strings; among these the examples use a blank
    string and [{not valid], which [JSON.parse] rejects. *)
Definition JSON_parse (s : string) : option value :=
  if s =? "{}" then Some (VObj [])
  else if s =? quoted "{'tokens':['USDC','USDT','USDGLO'],'chains':[8453,137,10]}" then
    Some (VObj [("tokens", VArr [VStr "USDC"; VStr "USDT"; VStr "USDGLO"]);
                ("chains", VArr [VNum (int 8453); VNum (int 137); VNum (int 10)])])
  else if s =? quoted "{'tokens':['USDC'],'chains':['eth','arb1']}" then
    Some (VObj [("tokens", VArr [VStr "USDC"]);
                ("chains", VArr [VStr "eth"; VStr "arb1"])])
  else None.

(** Exact on strings that start with [http://example.com/] or
    [https://example.com/] (true) and on strings without a colon
    (false: no scheme and no base URL). *)
Definition URL_parses (s : string) : bool :=
  startsWith s "https://example.com/" || startsWith s "http://example.com/".

Definition host : Host :=
  {| Js.Number_of_string := Number_of_string;
     Js.Number_toString := Number_toString;
     Js.JSON_parse := JSON_parse;
     Js.URL_parses := URL_parses |}.

(** The two public operations, as the specification names them, on this
    host. *)
Definition validate : Zod.schema := Validation.PreferencesSchema (host := host).

Definition serialize (preferences : object) : completion value :=
  Validation.convertPreferencesToText (host := host) preferences.

End Example.

(* ================================================================== *)
(** * Notions used to state the results *)
(* ================================================================== *)

Module Notions.
Import Zod Constants Utils Validation.

(** A schema that hands back its input when it accepts it. *)
Definition preserving (s : schema) : Prop :=
  forall input data, s input = Ok data -> data = input.

(** A schema that maps its own answers to themselves. *)
Definition idempotent (s : schema) : Prop :=
  forall input data, s input = Ok data -> s data = Ok data.

Definition is_string (v : value) : bool :=
  match v with VStr _ => true | _ => false end.

(** A value that [z.number()] accepts. *)
Definition is_number (v : value) : bool :=
  match v with VNum n => negb (isNaN n) | _ => false end.

Definition is_chain_item (v : value) : bool := is_string v || is_number v.

(** One step of [mergeObject]. *)
Definition add_pair (finalObject : object) (pair : string * outcome * bool) : object :=
  match pair with
  | (key, Ok v, alwaysSet) =>
      if negb (key =? "__proto__") && (negb (is_undefined v) || alwaysSet)
      then assign key v finalObject
      else finalObject
  | (_, ZodError, _) => finalObject
  end.

(** A number that is the id of a supported chain. *)
Definition in_registry (v : value) : bool :=
  match v with
  | VNum n => existsb (fun chain => num_eqb n chain.(id)) SUPPORTED_CHAINS
  | _ => false
  end.

(** The canonical preferences without any preference:
    [{chainIds: [], tokenSymbols: []}]. *)
Definition defaults : value :=
  VObj [("chainIds", VArr []); ("tokenSymbols", VArr [])].

(** The short names of the chain ids that have one. *)
Definition shortNames (ids : list number) : list string :=
  flat_map (fun id => match chainIdToShortName (VNum id) with
                      | VStr name => [name]
                      | _ => []
                      end) ids.

(** The loop of [convertPreferencesToText] that copies the properties of
    the input other than [chainIds] and [tokenSymbols], over the keys [ks]. *)
Definition copied (preferences : object) (ks : list string) (into : object) : object :=
  fold_left
    (fun formatted key =>
       if negb (key =? "chainIds") && negb (key =? "tokenSymbols")
       then assign key (get preferences key) formatted
       else formatted)
    ks into.

(** The keys of [PreferencesShape]. *)
Definition knownKeys : list string :=
  ["chainIds"; "tokenSymbols"; "chains"; "tokens"; "redirectUrl"; "currency";
   "amount"; "webhooks"; "og"].

Definition recognized (k : string) : bool := existsb (String.eqb k) knownKeys.

Section Pipeline.
Context {host : Host}.

(** The pairs [z.object] parses for the input object [o]: the keys of
    the shape, then the keys outside it. *)
Definition shapePairs (shape : list (string * schema)) (o : object)
  : list (string * outcome * bool) :=
  map (fun ks => (fst ks, snd ks (get o (fst ks)), has o (fst ks))) shape.

Definition extraPairs (o : object) : list (string * outcome * bool) :=
  map (fun key => (key, unknown (get o key), has o key))
      (filter (fun key => negb (recognized key)) (keys o)).

(** The data the transform of [PreferencesSchema] receives when every
    field of the input object [o] is accepted. *)
Definition parsedData (o : object) : object :=
  fold_left add_pair (shapePairs PreferencesShape o ++ extraPairs o)%list [].

Definition fields_accepted (o : object) : bool :=
  forallb (fun ks => success (snd ks (get o (fst ks)))) PreferencesShape.

(** ** The failures of validation, as the specification lists them

    [v] is the input after preprocessing. *)

Definition field (v : value) (k : string) : value :=
  match v with VObj o => get o k | _ => VUndefined end.














End Pipeline.

(** ** Notions used for the string utilities *)

Fixpoint has_comma (s : string) : bool :=
  match s with
  | EmptyString => false
  | String c s' => Ascii.eqb c ","%char || has_comma s'
  end.

(** The number of commas of a string. *)
Fixpoint commas (s : string) : nat :=
  match s with
  | EmptyString => 0%nat
  | String c s' => ((if Ascii.eqb c ","%char then 1 else 0) + commas s')%nat
  end.

(** An item as [commaStringToArray] returns them: it has no comma and no
    white space at either end. *)
Definition is_item (s : string) : Prop := has_comma s = false /\ trim s = s.

(** ** Notions used for the serializer *)

(** A boolean, a number or a string. *)
Definition primitive (v : value) : bool :=
  match v with VBool _ | VNum _ | VStr _ => true | _ => false end.

(** Two lists of numbers with [===] elements. *)
Definition same_ids (a b : list number) : Prop :=
  Forall2 (fun x y => num_eqb x y = true) a b.

End Notions.
(* ================================================================== *)
(** * Facts about objects *)
(* ================================================================== *)

Module ObjectFacts.

Ltac string_cases a b :=
  let E := fresh "E" in
  destruct (String.eqb_spec a b) as [E | E]; [try subst | idtac].

Lemma own_app (k : string) (a b : object) :
  own k (a ++ b)%list = match own k a with Some v => Some v | None => own k b end.
Proof.
  induction a as [| [k' v'] a IH]; simpl; [reflexivity |].
  destruct (k' =? k); [reflexivity | exact IH].
Qed.

Lemma hasOwn_In (k : string) (o : object) :
  hasOwn k o = true <-> In k (keys o).
Proof.
  unfold hasOwn. induction o as [| [k' v'] o IH]; simpl.
  - split; [discriminate | tauto].
  - string_cases k' k.
    + split; auto.
    + rewrite IH. split; [auto | intros [H | H]; [congruence | exact H]].
Qed.

Lemma hasOwn_false_In (k : string) (o : object) :
  hasOwn k o = false <-> ~ In k (keys o).
Proof.
  rewrite <- hasOwn_In. destruct (hasOwn k o); split; congruence.
Qed.

Lemma own_In (k : string) (v : value) (o : object) :
  own k o = Some v -> In (k, v) o.
Proof.
  induction o as [| [k' v'] o IH]; simpl; [discriminate |].
  string_cases k' k.
  - intros [= ->]. now left.
  - intros H. right. auto.
Qed.

Lemma In_own (k : string) (v : value) (o : object) :
  NoDup (keys o) -> In (k, v) o -> own k o = Some v.
Proof.
  induction o as [| [k' v'] o IH]; simpl; [tauto |].
  intros ND [H | H].
  - injection H as -> ->. now rewrite String.eqb_refl.
  - inversion ND as [| ? ? Hnotin ND']; subst.
    string_cases k' k.
    + exfalso. apply Hnotin. change k with (fst (k, v)). now apply in_map.
    + auto.
Qed.

Lemma own_rev (k : string) (o : object) :
  NoDup (keys o) -> own k (rev o) = own k o.
Proof.
  intros ND.
  destruct (own k o) as [v |] eqn:E.
  - apply In_own.
    + unfold keys. rewrite map_rev. now apply NoDup_rev.
    + apply in_rev. rewrite rev_involutive. now apply own_In.
  - destruct (own k (rev o)) as [v |] eqn:E'; [| reflexivity].
    apply own_In, in_rev in E'. apply (In_own _ _ _ ND) in E'. congruence.
Qed.

Lemma own_filter_keys (p : string -> bool) (k : string) (o : object) :
  own k (filter (fun kv => p (fst kv)) o) = if p k then own k o else None.
Proof.
  induction o as [| [k' v'] o IH]; simpl.
  - now destruct (p k).
  - destruct (p k') eqn:Ep; simpl.
    + string_cases k' k; [now rewrite Ep | exact IH].
    + string_cases k' k; [now rewrite Ep in IH |- * | exact IH].
Qed.

Lemma NoDup_filter_keys (p : string * value -> bool) (o : object) :
  NoDup (keys o) -> NoDup (keys (filter p o)).
Proof.
  induction o as [| [k v] o IH]; simpl; intros ND; [constructor |].
  inversion ND as [| ? ? Hnotin ND']; subst.
  destruct (p (k, v)); simpl; [| auto].
  constructor; [| auto].
  intros Hin. apply Hnotin. unfold keys in *.
  apply in_map_iff in Hin as [[k' v'] [Hk Hin]]. simpl in Hk. subst k'.
  apply filter_In in Hin as [Hin _].
  change k with (fst (k, v')). now apply in_map.
Qed.

Lemma own_delete (k k' : string) (o : object) :
  own k (delete k' o) = if k' =? k then None else own k o.
Proof.
  unfold delete.
  rewrite (own_filter_keys (fun key => negb (key =? k'))).
  string_cases k' k.
  - now rewrite String.eqb_refl.
  - rewrite (proj2 (String.eqb_neq k k')); [reflexivity | congruence].
Qed.

Lemma keys_replace (k : string) (v : value) (o : object) :
  keys (replace k v o) = keys o.
Proof.
  induction o as [| [k' v'] o IH]; simpl; [reflexivity |].
  destruct (k' =? k); simpl; [reflexivity | now rewrite IH].
Qed.

Lemma own_replace (k k' : string) (v : value) (o : object) :
  hasOwn k' o = true ->
  own k (replace k' v o) = if k' =? k then Some v else own k o.
Proof.
  unfold hasOwn. induction o as [| [k0 v0] o IH]; simpl; [discriminate |].
  string_cases k0 k'.
  - intros _. simpl. destruct (k' =? k); reflexivity.
  - intros H. simpl. string_cases k0 k.
    + rewrite (proj2 (String.eqb_neq k' k)); [reflexivity | congruence].
    + auto.
Qed.

Lemma keys_insert_index (n : N) (k : string) (v : value) (o : object) :
  forall x, In x (keys (insert_index n k v o)) <-> x = k \/ In x (keys o).
Proof.
  induction o as [| [k' v'] o IH]; simpl; intros x.
  - split; intros [H | H]; auto.
  - destruct (array_index k') as [n' |]; [destruct (n' <? n)%N |]; simpl;
      rewrite ?IH; intuition auto.
Qed.

Lemma NoDup_insert_index (n : N) (k : string) (v : value) (o : object) :
  ~ In k (keys o) -> NoDup (keys o) -> NoDup (keys (insert_index n k v o)).
Proof.
  induction o as [| [k' v'] o IH]; simpl; intros Hk ND.
  - constructor; [tauto | constructor].
  - inversion ND as [| ? ? Hnotin ND']; subst.
    assert (NoDup (k :: k' :: keys o)) by (constructor; [simpl; tauto | exact ND]).
    destruct (array_index k') as [n' |]; [destruct (n' <? n)%N |]; simpl; auto.
    constructor.
    + rewrite keys_insert_index. intros [-> | Hin]; tauto.
    + apply IH; tauto.
Qed.

Lemma own_insert_index (n : N) (k k' : string) (v : value) (o : object) :
  hasOwn k' o = false ->
  own k (insert_index n k' v o) = if k' =? k then Some v else own k o.
Proof.
  unfold hasOwn. induction o as [| [k0 v0] o IH]; simpl.
  - reflexivity.
  - string_cases k0 k'; [discriminate |]. intros H.
    destruct (array_index k0) as [n' |]; [destruct (n' <? n)%N |]; simpl;
      try reflexivity.
    string_cases k0 k.
    + rewrite (proj2 (String.eqb_neq k' k)); [reflexivity | congruence].
    + auto.
Qed.

Lemma own_define (k k' : string) (v : value) (o : object) :
  own k (define k' v o) = if k' =? k then Some v else own k o.
Proof.
  unfold define. destruct (hasOwn k' o) eqn:E.
  - now apply own_replace.
  - destruct (array_index k') as [n |].
    + now apply own_insert_index.
    + rewrite own_app. simpl. unfold hasOwn in E.
      string_cases k' k.
      * destruct (own k o); [discriminate | reflexivity].
      * now destruct (own k o).
Qed.

Lemma NoDup_define (k : string) (v : value) (o : object) :
  NoDup (keys o) -> NoDup (keys (define k v o)).
Proof.
  intros ND. unfold define. destruct (hasOwn k o) eqn:E.
  - now rewrite keys_replace.
  - apply hasOwn_false_In in E.
    destruct (array_index k) as [n |].
    + now apply NoDup_insert_index.
    + unfold keys. rewrite map_app. simpl.
      apply NoDup_app; [exact ND | constructor; [tauto | constructor] |].
      intros x Hx [<- | []]. exact (E Hx).
Qed.

Lemma own_assign (k k' : string) (v : value) (o : object) :
  k' <> "__proto__" ->
  own k (assign k' v o) = if k' =? k then Some v else own k o.
Proof.
  intros H. unfold assign.
  rewrite (proj2 (String.eqb_neq k' "__proto__") H), andb_false_r.
  apply own_define.
Qed.

Lemma NoDup_assign (k : string) (v : value) (o : object) :
  NoDup (keys o) -> NoDup (keys (assign k v o)).
Proof.
  intros ND. unfold assign.
  destruct (negb (hasOwn k o) && (k =? "__proto__")); [exact ND |].
  now apply NoDup_define.
Qed.

Lemma own_spread (k : string) (l into : object) :
  own k (spread l into)
  = match own k (rev l) with Some v => Some v | None => own k into end.
Proof.
  unfold spread. revert into.
  induction l as [| [k' v'] l IH]; intros into; simpl; [reflexivity |].
  rewrite IH, own_app, own_define. simpl.
  destruct (own k (rev l)); [reflexivity |].
  now destruct (k' =? k).
Qed.

Lemma NoDup_spread (l into : object) :
  NoDup (keys into) -> NoDup (keys (spread l into)).
Proof.
  unfold spread. revert into.
  induction l as [| [k' v'] l IH]; intros into ND; simpl; [exact ND |].
  apply IH. now apply NoDup_define.
Qed.

Lemma own_rest (excluded : list string) (k : string) (o : object) :
  NoDup (keys o) ->
  own k (rest excluded o)
  = if existsb (String.eqb k) excluded then None else own k o.
Proof.
  intros ND. unfold rest. rewrite own_spread. simpl.
  rewrite own_rev by now apply NoDup_filter_keys.
  rewrite (own_filter_keys (fun key => negb (existsb (String.eqb key) excluded))).
  destruct (existsb (String.eqb k) excluded); simpl; [reflexivity |].
  now destruct (own k o).
Qed.

Lemma NoDup_rest (excluded : list string) (o : object) :
  NoDup (keys (rest excluded o)).
Proof. apply NoDup_spread. constructor. Qed.

(** Reading a key that [Object.prototype] does not define. *)
Lemma get_own (o : object) (k : string) :
  hasOwn k Object_prototype = false ->
  get o k = match own k o with Some v => v | None => VUndefined end.
Proof.
  unfold get, hasOwn. intros H.
  destruct (own k o); [reflexivity |].
  now destruct (own k Object_prototype).
Qed.

(** What the clean-up loop leaves of each property. *)
Lemma own_delete_undefined_from (k : string) (ks : list string) (o : object) :
  own k (fold_left (fun acc key => if is_undefined (get acc key) then delete key acc else acc)
                    ks o)
  = match own k o with
    | Some VUndefined => if existsb (String.eqb k) ks then None else Some VUndefined
    | r => r
    end.
Proof.
  revert o. induction ks as [| key ks IH]; intros o; simpl.
  - now destruct (own k o) as [[] |].
  - rewrite IH. clear IH.
    string_cases k key.
    + simpl. unfold get.
      destruct (own key o) as [v |] eqn:E.
      * destruct v; simpl; rewrite ?own_delete, ?String.eqb_refl, ?E; reflexivity.
      * destruct (is_undefined _); rewrite ?own_delete, ?String.eqb_refl, ?E; reflexivity.
    + simpl.
      assert (own k (if is_undefined (get o key) then delete key o else o) = own k o) as ->.
      { destruct (is_undefined (get o key)); [| reflexivity].
        rewrite own_delete.
        rewrite (proj2 (String.eqb_neq key k)); [reflexivity | congruence]. }
      reflexivity.
Qed.

Lemma own_delete_undefined (k : string) (o : object) :
  own k (delete_undefined o)
  = match own k o with Some VUndefined => None | r => r end.
Proof.
  unfold delete_undefined. rewrite own_delete_undefined_from.
  destruct (own k o) as [v |] eqn:E; [| reflexivity].
  destruct v; try reflexivity.
  assert (existsb (String.eqb k) (keys o) = true) as ->; [| reflexivity].
  apply existsb_exists. exists k. split; [| apply String.eqb_refl].
  apply hasOwn_In. unfold hasOwn. now rewrite E.
Qed.

Lemma delete_undefined_defined (k : string) (o : object) :
  own k (delete_undefined o) <> Some VUndefined.
Proof.
  rewrite own_delete_undefined. destruct (own k o) as [[] |]; congruence.
Qed.

End ObjectFacts.

(* ================================================================== *)
(** * Facts about the zod combinators *)
(* ================================================================== *)

Module ZodFacts.
Import Zod Notions ObjectFacts.

Section ZodFacts.
Context {host : Host}.

Lemma success_Ok (r : outcome) : success r = true <-> exists data, r = Ok data.
Proof.
  destruct r; simpl; split; try discriminate; eauto.
  intros [? [=]].
Qed.

Lemma success_false (r : outcome) : success r = false <-> r = ZodError.
Proof. destruct r; simpl; split; congruence. Qed.

Lemma string_preserving : preserving string_.
Proof. intros [] data; simpl; congruence. Qed.

Lemma number_preserving : preserving number_.
Proof. intros [| | |[]| | | |] data; simpl; congruence. Qed.

Lemma check_preserving p s : preserving s -> preserving (check p s).
Proof.
  intros Hs input data. unfold check.
  destruct (s input) as [d |] eqn:E; [| discriminate].
  destruct (p d); [| discriminate]. intros [= <-]. now apply Hs.
Qed.

Lemma union_preserving a b : preserving a -> preserving b -> preserving (union a b).
Proof.
  intros Ha Hb input data. unfold union.
  destruct (a input) eqn:E; [intros [= <-]; now apply Ha | apply Hb].
Qed.

Lemma success_string v : success (string_ v) = is_string v.
Proof. now destruct v. Qed.

Lemma success_number v : success (number_ v) = is_number v.
Proof. destruct v as [| | |[]| | | |]; reflexivity. Qed.


Lemma success_union a b v : success (union a b v) = success (a v) || success (b v).
Proof. unfold union. now destruct (a v). Qed.


Lemma parse_elements_preserving element l l' :
  preserving element -> parse_elements element l = Some l' -> l' = l.
Proof.
  intros He. revert l'. induction l as [| x l IH]; simpl; intros l'.
  - now intros [= <-].
  - destruct (element x) as [y |] eqn:E; [| discriminate].
    destruct (parse_elements element l) as [ys |]; [| discriminate].
    intros [= <-]. apply He in E. subst y. f_equal. now apply IH.
Qed.

Lemma parse_elements_success element l :
  (exists l', parse_elements element l = Some l')
  <-> forallb (fun x => success (element x)) l = true.
Proof.
  induction l as [| x l IH]; simpl.
  - split; eauto.
  - destruct (element x) as [y |]; simpl.
    + rewrite <- IH. destruct (parse_elements element l) as [ys |].
      * split; eauto.
      * split; intros [l' [=]].
    + split; [intros [l' [=]] | discriminate].
Qed.

Lemma array_preserving element : preserving element -> preserving (array element).
Proof.
  intros He [] data; simpl; try discriminate.
  destruct (parse_elements element elems) as [l' |] eqn:E; [| discriminate].
  intros [= <-]. f_equal. now apply parse_elements_preserving in E.
Qed.

Lemma success_array element v :
  success (array element v)
  = match v with
    | VArr l => forallb (fun x => success (element x)) l
    | _ => false
    end.
Proof.
  destruct v; try reflexivity. simpl.
  destruct (parse_elements element elems) as [l' |] eqn:E; simpl.
  - symmetry. apply parse_elements_success. eauto.
  - destruct (forallb _ elems) eqn:F; [| reflexivity].
    apply parse_elements_success in F as [l' F]. congruence.
Qed.

Lemma array_Ok element v data :
  preserving element ->
  array element v = Ok data ->
  exists l, v = VArr l /\ data = VArr l
            /\ forallb (fun x => success (element x)) l = true.
Proof.
  intros He H. pose proof (array_preserving _ He _ _ H) as ->.
  assert (success (array element v) = true) as S by now rewrite H.
  rewrite success_array in S. destruct v; try discriminate. eauto.
Qed.

(** ** Objects *)

Lemma mergeObject_spec pairs finalObject :
  mergeObject pairs finalObject
  = if forallb (fun pair => success (snd (fst pair))) pairs
    then Ok (VObj (fold_left add_pair pairs finalObject))
    else ZodError.
Proof.
  revert finalObject.
  induction pairs as [| [[key parsed] alwaysSet] pairs IH]; intros finalObject; simpl.
  - reflexivity.
  - destruct parsed; simpl; [apply IH | reflexivity].
Qed.

Lemma own_add_pair k key v alwaysSet o :
  own k (add_pair o (key, Ok v, alwaysSet))
  = if negb (key =? "__proto__") && (negb (is_undefined v) || alwaysSet) && (key =? k)
    then Some v else own k o.
Proof.
  simpl. string_cases key "__proto__"; simpl; [reflexivity |].
  destruct (negb (is_undefined v) || alwaysSet); simpl; [| reflexivity].
  now apply own_assign.
Qed.

Lemma NoDup_add_pair o pair : NoDup (keys o) -> NoDup (keys (add_pair o pair)).
Proof.
  destruct pair as [[key [v |]] alwaysSet]; simpl; [| auto].
  destruct (_ && _); [apply NoDup_assign | auto].
Qed.

Lemma NoDup_fold_add_pair pairs o :
  NoDup (keys o) -> NoDup (keys (fold_left add_pair pairs o)).
Proof.
  revert o. induction pairs as [| pair pairs IH]; intros o ND; simpl; [exact ND |].
  apply IH. now apply NoDup_add_pair.
Qed.

(** The keys outside the shape, parsed by a catchall [z.unknown()]. *)
Lemma own_fold_unknown (data : object) k ks o :
  own k (fold_left add_pair
           (map (fun key => (key, unknown (get data key), has data key)) ks) o)
  = if existsb (String.eqb k) ks && negb (k =? "__proto__")
       && (negb (is_undefined (get data k)) || has data k)
    then Some (get data k) else own k o.
Proof.
  revert o. induction ks as [| key ks IH]; intros o; simpl; [reflexivity |].
  rewrite IH. clear IH.
  pose proof (own_add_pair k key (get data key) (has data key) o) as A.
  simpl in A. rewrite A. clear A.
  string_cases k key.
  - simpl. rewrite String.eqb_refl, andb_true_r.
    destruct (existsb _ ks); simpl;
      destruct (negb (key =? "__proto__") && _); reflexivity.
  - rewrite (proj2 (String.eqb_neq key k)) by congruence.
    now rewrite andb_false_r.
Qed.

Lemma forallb_unknown (data : object) ks :
  forallb (fun pair : string * outcome * bool => success (snd (fst pair)))
    (map (fun key => (key, unknown (get data key), has data key)) ks) = true.
Proof. induction ks; simpl; auto. Qed.

End ZodFacts.
End ZodFacts.

(* ================================================================== *)
(** * Facts about the field schemas *)
(* ================================================================== *)

Module FieldFacts.
Import Zod Notions ObjectFacts ZodFacts Constants Utils Validation.

Section FieldFacts.
Context {host : Host}.

(** A string is never a valid number: [isValidNumber] is given one only. *)
Lemma isValidNumber_string (s : string) : isValidNumber (VStr s) = false.
Proof. reflexivity. Qed.

Lemma resolveChainIdOrShortName_lookup (s : string) :
  resolveChainIdOrShortName s
  = if has CHAIN_SHORT_NAMES (toLowerCase s)
    then get CHAIN_SHORT_NAMES (toLowerCase s) else VUndefined.
Proof. reflexivity. Qed.

(** What the filter of [ChainConfigSchema] keeps is a number. *)
Lemma supported_number (v : value) :
  supported v = true -> exists n, v = VNum n /\ isNaN n = false.
Proof.
  unfold supported. destruct v; simpl; try discriminate.
  intros H. exists n. split; [reflexivity |].
  destruct n; simpl in *; [discriminate | reflexivity | reflexivity].
Qed.

Lemma supported_resolved (v : value) :
  supported v = true -> resolveChain v = v /\ is_number v = true.
Proof.
  intros H. apply supported_number in H as [n [-> Hn]]. simpl. now rewrite Hn.
Qed.

Lemma forallb_pointwise {A} (f g : A -> bool) (l : list A) :
  (forall x, f x = g x) -> forallb f l = forallb g l.
Proof. intros H. induction l as [| x l IH]; simpl; [reflexivity |]. now rewrite H, IH. Qed.

Lemma forallb_filter {A} (p : A -> bool) (l : list A) :
  forallb p (filter p l) = true.
Proof.
  induction l as [| x l IH]; simpl; [reflexivity |].
  destruct (p x) eqn:E; simpl; [now rewrite E |]; exact IH.
Qed.

Lemma filter_all {A} (p : A -> bool) (l : list A) :
  forallb p l = true -> filter p l = l.
Proof.
  induction l as [| x l IH]; simpl; [reflexivity |].
  destruct (p x); simpl; [intros H; f_equal; auto | discriminate].
Qed.

Lemma map_fixed {A} (f : A -> A) (l : list A) :
  Forall (fun x => f x = x) l -> map f l = l.
Proof. induction 1; simpl; congruence. Qed.

Lemma union_string_number_preserving : preserving (union string_ number_).
Proof. apply union_preserving; [apply string_preserving | apply number_preserving]. Qed.

(** [ChainConfigSchema] accepts exactly the inputs whose items are
    strings and numbers, and answers the supported ids among them. *)
Lemma ChainConfigSchema_Ok (input data : value) :
  ChainConfigSchema input = Ok data
  <-> exists items,
        chainItems input = VArr items
        /\ forallb is_chain_item items = true
        /\ data = VArr (filter supported (map resolveChain items)).
Proof.
  unfold ChainConfigSchema, preprocess, transform. split.
  - destruct (array _ (chainItems input)) as [d |] eqn:E; [| discriminate].
    intros [= <-].
    apply array_Ok in E as [l [E1 [-> E3]]]; [| apply union_string_number_preserving].
    exists l. split; [exact E1 | split; [| reflexivity]].
    erewrite forallb_pointwise; [exact E3 |].
    intros x. unfold is_chain_item.
    now rewrite success_union, success_string, success_number.
  - intros [items [E1 [E2 ->]]]. rewrite E1.
    assert (success (array (union string_ number_) (VArr items)) = true) as S.
    { rewrite success_array. erewrite forallb_pointwise; [exact E2 |].
      intros x. unfold is_chain_item.
      now rewrite success_union, success_string, success_number. }
    apply success_Ok in S as [d S]. rewrite S.
    apply array_preserving in S; [| apply union_string_number_preserving].
    now subst d.
Qed.

Lemma success_ChainConfigSchema (input : value) :
  success (ChainConfigSchema input)
  = match chainItems input with
    | VArr items => forallb is_chain_item items
    | _ => false
    end.
Proof.
  unfold ChainConfigSchema, preprocess, transform.
  destruct (array _ (chainItems input)) as [d |] eqn:E.
  - apply array_Ok in E as [l [-> [_ E3]]]; [| apply union_string_number_preserving].
    simpl. rewrite <- E3. apply forallb_pointwise. intros x. unfold is_chain_item.
    now rewrite success_union, success_string, success_number.
  - apply success_false in E. rewrite success_array in E. simpl.
    destruct (chainItems input); try reflexivity.
    rewrite <- E. apply forallb_pointwise. intros x. unfold is_chain_item.
    now rewrite success_union, success_string, success_number.
Qed.

(** The schema maps its own answers to themselves. *)
Lemma ChainConfigSchema_idempotent (input data : value) :
  ChainConfigSchema input = Ok data -> ChainConfigSchema data = Ok data.
Proof.
  intros H. apply ChainConfigSchema_Ok in H as [items [_ [_ ->]]].
  set (ids := filter supported (map resolveChain items)).
  assert (Forall (fun v => supported v = true) ids) as F.
  { apply Forall_forall. intros v Hv. now apply filter_In in Hv. }
  apply ChainConfigSchema_Ok. exists ids. repeat split.
  - apply forallb_forall. intros v Hv.
    rewrite Forall_forall in F. apply F, supported_resolved in Hv as [_ Hv].
    unfold is_chain_item. now rewrite Hv, orb_true_r.
  - f_equal. rewrite map_fixed.
    + symmetry. apply filter_all. apply forallb_forall. now apply Forall_forall.
    + eapply Forall_impl; [| exact F]. intros v Hv. now apply supported_resolved.
Qed.

Lemma ChainConfigSchema_array (input data : value) :
  ChainConfigSchema input = Ok data -> exists ids, data = VArr ids.
Proof. intros H. apply ChainConfigSchema_Ok in H as [items [_ [_ ->]]]. eauto. Qed.

Lemma TokenConfigSchema_Ok (input data : value) :
  TokenConfigSchema input = Ok data
  <-> exists items,
        tokenItems input = VArr items
        /\ forallb is_string items = true
        /\ data = VArr items.
Proof.
  unfold TokenConfigSchema, preprocess. split.
  - intros E. apply array_Ok in E as [l [E1 [-> E3]]]; [| apply string_preserving].
    exists l. split; [exact E1 | split; [| reflexivity]].
    erewrite forallb_pointwise; [exact E3 |]. intros x. cbv beta. now rewrite success_string.
  - intros [items [E1 [E2 ->]]]. rewrite E1.
    assert (success (array string_ (VArr items)) = true) as S.
    { rewrite success_array. erewrite forallb_pointwise; [exact E2 |].
      intros x. cbv beta. now rewrite success_string. }
    apply success_Ok in S as [d S]. rewrite S.
    apply array_preserving in S; [| apply string_preserving]. now subst d.
Qed.

Lemma success_TokenConfigSchema (input : value) :
  success (TokenConfigSchema input)
  = match tokenItems input with
    | VArr items => forallb is_string items
    | _ => false
    end.
Proof.
  unfold TokenConfigSchema, preprocess. rewrite success_array.
  destruct (tokenItems input); try reflexivity.
  apply forallb_pointwise. intros x. cbv beta. now rewrite success_string.
Qed.

Lemma TokenConfigSchema_idempotent (input data : value) :
  TokenConfigSchema input = Ok data -> TokenConfigSchema data = Ok data.
Proof.
  intros H. apply TokenConfigSchema_Ok in H as [items [_ [E ->]]].
  apply TokenConfigSchema_Ok. exists items. auto.
Qed.

Lemma TokenConfigSchema_array (input data : value) :
  TokenConfigSchema input = Ok data -> exists items, data = VArr items.
Proof. intros H. apply TokenConfigSchema_Ok in H as [items [_ [_ ->]]]. eauto. Qed.

End FieldFacts.
End FieldFacts.

(* ================================================================== *)
(** * Facts about the pipeline of [PreferencesSchema] *)
(* ================================================================== *)

Module PipelineFacts.
Import Zod Notions ObjectFacts ZodFacts FieldFacts Constants Utils Validation.

Section PipelineFacts.
Context {host : Host}.

Lemma find_key_absent (shape : list (string * schema)) (k : string) :
  ~ In k (map fst shape) -> find (fun ks => fst ks =? k) shape = None.
Proof.
  induction shape as [| [k0 s0] shape IH]; simpl; [reflexivity |].
  intros H. string_cases k0 k; [tauto | apply IH; tauto].
Qed.

Lemma own_fold_shape (o : object) shape acc k :
  NoDup (map fst shape) ->
  own k (fold_left add_pair (shapePairs shape o) acc)
  = match find (fun ks => fst ks =? k) shape with
    | Some ks =>
        match snd ks (get o k) with
        | Ok v =>
            if negb (k =? "__proto__") && (negb (is_undefined v) || has o k)
            then Some v else own k acc
        | ZodError => own k acc
        end
    | None => own k acc
    end.
Proof.
  revert acc. induction shape as [| [k0 s0] shape IH]; intros acc ND.
  - reflexivity.
  - inversion ND as [| ? ? Hnotin ND']; subst.
    unfold shapePairs. cbn [map fold_left fst snd find]. fold (shapePairs shape o).
    rewrite (IH _ ND'). clear IH.
    string_cases k0 k.
    + rewrite (find_key_absent _ _ Hnotin). cbn [snd].
      destruct (s0 (get o k)) as [v |]; [| reflexivity].
      rewrite own_add_pair. now rewrite String.eqb_refl, andb_true_r.
    + assert (own k (add_pair acc (k0, s0 (get o k0), has o k0)) = own k acc) as ->.
      { destruct (s0 (get o k0)) as [v |]; [| reflexivity].
        rewrite own_add_pair.
        rewrite (proj2 (String.eqb_neq k0 k)) by congruence.
        now rewrite andb_false_r. }
      reflexivity.
Qed.

Lemma knownKeys_shape : map fst PreferencesShape = knownKeys.
Proof. reflexivity. Qed.

Lemma NoDup_knownKeys : NoDup knownKeys.
Proof.
  unfold knownKeys.
  repeat (constructor; [simpl; intuition discriminate |]). constructor.
Qed.

(** [z.object(shape).catchall(z.unknown())] on an object. *)
Lemma object_PreferencesShape (o : object) :
  object_ PreferencesShape (Some unknown) (VObj o)
  = if fields_accepted o then Ok (VObj (parsedData o)) else ZodError.
Proof.
  unfold object_. rewrite mergeObject_spec.
  change (map fst PreferencesShape) with knownKeys.
  change (fun key => negb (existsb (String.eqb key) knownKeys))
    with (fun key => negb (recognized key)).
  fold (shapePairs PreferencesShape o). fold (extraPairs o).
  rewrite forallb_app. unfold extraPairs at 1. rewrite forallb_unknown, andb_true_r.
  reflexivity.
Qed.

Lemma NoDup_parsedData (o : object) : NoDup (keys (parsedData o)).
Proof. apply NoDup_fold_add_pair. constructor. Qed.

Lemma own_parsedData (o : object) (k : string) :
  own k (parsedData o)
  = if negb (recognized k) && hasOwn k o && negb (k =? "__proto__")
    then Some (get o k)
    else match find (fun ks => fst ks =? k) PreferencesShape with
         | Some ks =>
             match snd ks (get o k) with
             | Ok v => if negb (is_undefined v) || has o k then Some v else None
             | ZodError => None
             end
         | None => None
         end.
Proof.
  unfold parsedData. rewrite fold_left_app. unfold extraPairs.
  rewrite own_fold_unknown.
  rewrite own_fold_shape by (rewrite knownKeys_shape; apply NoDup_knownKeys).
  assert (existsb (String.eqb k) (filter (fun key => negb (recognized key)) (keys o))
          = negb (recognized k) && hasOwn k o) as ->.
  { destruct (negb (recognized k) && hasOwn k o) eqn:E.
    - apply andb_prop in E as [E1 E2]. apply existsb_exists. exists k.
      split; [| apply String.eqb_refl].
      apply filter_In. split; [now apply hasOwn_In | exact E1].
    - destruct (existsb _ _) eqn:F; [| reflexivity].
      apply existsb_exists in F as [x [Hx Ex]].
      apply String.eqb_eq in Ex. subst x.
      apply filter_In in Hx as [Hx1 Hx2]. apply hasOwn_In in Hx1.
      now rewrite Hx1, Hx2 in E. }
  destruct (negb (recognized k) && hasOwn k o) eqn:E; cbn [andb].
  - apply andb_prop in E as [E1 E2].
    unfold has. rewrite E2. cbn [orb]. rewrite orb_true_r, andb_true_r.
    destruct (negb (k =? "__proto__")) eqn:P; [reflexivity |].
    apply negb_false_iff, String.eqb_eq in P. subst k. reflexivity.
  - match goal with
    | |- context [find ?f ?l] => destruct (find f l) as [ks |] eqn:F
    end; [| reflexivity].
    destruct (snd ks (get o k)) as [v |]; [| reflexivity].
    assert ((k =? "__proto__") = false) as ->; [| reflexivity].
    apply find_some in F as [F1 F2]. apply String.eqb_eq in F2. subst k.
    apply (in_map fst) in F1. rewrite knownKeys_shape in F1.
    simpl in F1.
    repeat (destruct F1 as [<- | F1]; [reflexivity |]). contradiction.
Qed.

Lemma PreferencesSchema_spec (input : value) :
  PreferencesSchema input
  = match parseInput input with
    | VObj o =>
        if fields_accepted o then Ok (mergePreferences (VObj (parsedData o)))
        else ZodError
    | _ => ZodError
    end.
Proof.
  unfold PreferencesSchema, preprocess, transform.
  destruct (parseInput input) as [| | | | | | o |]; try reflexivity.
  rewrite object_PreferencesShape. now destruct (fields_accepted o).
Qed.

Lemma nullish_defined (a b : value) :
  is_undefined (nullish a (nullish b (VArr []))) = false.
Proof. destruct a; try reflexivity; destruct b; reflexivity. Qed.

(** The properties of the object that the transform returns. *)
Lemma own_mergePreferences (data : object) (k : string) :
  NoDup (keys data) ->
  own k (props (mergePreferences (VObj data)))
  = if k =? "chainIds" then
      Some (nullish (get data "chains") (nullish (get data "chainIds") (VArr [])))
    else if k =? "tokenSymbols" then
      Some (nullish (get data "tokens") (nullish (get data "tokenSymbols") (VArr [])))
    else if existsb (String.eqb k) ["redirectUrl"; "currency"; "amount"; "webhooks"; "og"]
    then (if is_undefined (get data k) then None else Some (get data k))
    else if existsb (String.eqb k) ["chains"; "tokens"] then None
    else match own k data with Some VUndefined => None | r => r end.
Proof.
  intros ND. unfold mergePreferences. cbn [props].
  rewrite own_delete_undefined, own_spread, (own_rev _ _ (NoDup_rest _ _)),
    (own_rest _ _ _ ND), own_spread.
  cbn [rev app existsb own].
  pose proof (nullish_defined (get data "chains") (get data "chainIds")) as Dc.
  pose proof (nullish_defined (get data "tokens") (get data "tokenSymbols")) as Dt.
  repeat match goal with
         | |- context [String.eqb k ?lit] =>
             destruct (String.eqb_spec k lit) as [-> | ?]
         end.
  all: repeat match goal with
         | H : ?x <> ?lit |- context [String.eqb ?lit ?x] =>
             rewrite (proj2 (String.eqb_neq lit x)) by congruence
         end.
  all: cbn.
  all: try (destruct (nullish (get data "chains") _); (discriminate || reflexivity)).
  all: try (destruct (nullish (get data "tokens") _); (discriminate || reflexivity)).
  all: try (match goal with
            | |- context [get ?d ?lit] => destruct (get d lit); reflexivity
            end).
  all: destruct (own k data) as [[] |]; reflexivity.
Qed.

Lemma fields_accepted_field (o : object) (ks : string * schema) :
  fields_accepted o = true -> In ks PreferencesShape ->
  exists v, snd ks (get o (fst ks)) = Ok v.
Proof.
  unfold fields_accepted. rewrite forallb_forall. intros H Hin.
  apply success_Ok. exact (H _ Hin).
Qed.

Lemma recognized_not_inherited (k : string) :
  recognized k = true -> hasOwn k Object_prototype = false.
Proof.
  unfold recognized. intros H. apply existsb_exists in H as [x [Hin E]].
  apply String.eqb_eq in E. subst x. simpl in Hin.
  repeat (destruct Hin as [<- | Hin]; [reflexivity |]). contradiction.
Qed.

(** The transform reads, for a key of the shape, what its schema made
    of the property of the input. *)
Lemma get_parsedData_known (o : object) (ks : string * schema) (v : value) :
  In ks PreferencesShape ->
  snd ks (get o (fst ks)) = Ok v ->
  get (parsedData o) (fst ks) = v.
Proof.
  intros Hin Hv.
  assert (recognized (fst ks) = true) as R.
  { apply existsb_exists. exists (fst ks). split; [| apply String.eqb_refl].
    rewrite <- knownKeys_shape. now apply in_map. }
  assert (find (fun ks' => fst ks' =? fst ks) PreferencesShape = Some ks) as F.
  { simpl in Hin.
    repeat (destruct Hin as [<- | Hin]; [reflexivity |]). contradiction. }
  rewrite get_own by now apply recognized_not_inherited.
  rewrite own_parsedData, R, F, Hv. cbn [negb andb].
  destruct (negb (is_undefined v) || has o (fst ks)) eqn:E; [reflexivity |].
  apply orb_false_elim in E as [E _]. now destruct v.
Qed.

Lemma optional_present (s : schema) (v : value) :
  v <> VUndefined -> optional s v = s v.
Proof. destruct v; congruence || reflexivity. Qed.

Lemma own_chainIds (data : object) :
  NoDup (keys data) ->
  own "chainIds" (props (mergePreferences (VObj data)))
  = Some (nullish (get data "chains") (nullish (get data "chainIds") (VArr []))).
Proof. intros ND. now rewrite own_mergePreferences. Qed.

Lemma own_tokenSymbols (data : object) :
  NoDup (keys data) ->
  own "tokenSymbols" (props (mergePreferences (VObj data)))
  = Some (nullish (get data "tokens") (nullish (get data "tokenSymbols") (VArr []))).
Proof. intros ND. now rewrite own_mergePreferences. Qed.

Lemma own_chains_tokens (data : object) :
  NoDup (keys data) ->
  own "chains" (props (mergePreferences (VObj data))) = None
  /\ own "tokens" (props (mergePreferences (VObj data))) = None.
Proof. intros ND. now rewrite !own_mergePreferences. Qed.

End PipelineFacts.
End PipelineFacts.

(* ================================================================== *)
(** * The scenarios of the test suite and of the documentation *)
(* ================================================================== *)

Module Scenarios.
Import Zod Notions Constants Utils Validation.

Import Example.

(** [should validate preferences with tokens and chains] *)
Example tokens_and_chains :
  validate (VObj [("tokens", VArr [VStr "USDC"; VStr "USDT"; VStr "USDGLO"]);
                  ("chains", VArr [VNum (int 8453); VNum (int 137); VNum (int 10)])])
  = Ok (VObj [("chainIds", VArr [VNum (int 8453); VNum (int 137); VNum (int 10)]);
              ("tokenSymbols", VArr [VStr "USDC"; VStr "USDT"; VStr "USDGLO"])]).
Proof. vm_compute. reflexivity. Qed.

(** [should handle string input for tokens and chains] *)
Example comma_strings :
  validate (VObj [("tokens", VStr "USDC,USDT,USDGLO"); ("chains", VStr "8453,137,10")])
  = Ok (VObj [("chainIds", VArr [VNum (int 8453); VNum (int 137); VNum (int 10)]);
              ("tokenSymbols", VArr [VStr "USDC"; VStr "USDT"; VStr "USDGLO"])]).
Proof. vm_compute. reflexivity. Qed.

(** [should handle JSON string input] *)
Example json_string :
  validate (VStr (quoted "{'tokens':['USDC','USDT','USDGLO'],'chains':[8453,137,10]}"))
  = Ok (VObj [("chainIds", VArr [VNum (int 8453); VNum (int 137); VNum (int 10)]);
              ("tokenSymbols", VArr [VStr "USDC"; VStr "USDT"; VStr "USDGLO"])]).
Proof. vm_compute. reflexivity. Qed.

(** Short names in a JSON string. *)
Example json_short_names :
  validate (VStr (quoted "{'tokens':['USDC'],'chains':['eth','arb1']}"))
  = Ok (VObj [("chainIds", VArr [VNum (int 1); VNum (int 42161)]);
              ("tokenSymbols", VArr [VStr "USDC"])]).
Proof. vm_compute. reflexivity. Qed.

(** [chains] wins over [chainIds]. *)
Example chains_take_precedence :
  validate (VObj [("chains", VArr [VNum (int 1)]); ("chainIds", VArr [VNum (int 10)])])
  = Ok (VObj [("chainIds", VArr [VNum (int 1)]); ("tokenSymbols", VArr [])]).
Proof. vm_compute. reflexivity. Qed.

(** [should handle webhooks] *)
Example secure_webhooks :
  validate (VObj [("webhooks", VArr [VStr "https://example.com/webhook1";
                                     VStr "https://example.com/webhook2"])])
  = Ok (VObj [("chainIds", VArr []); ("tokenSymbols", VArr []);
              ("webhooks", VArr [VStr "https://example.com/webhook1";
                                 VStr "https://example.com/webhook2"])]).
Proof. vm_compute. reflexivity. Qed.

(** [should reject invalid URLs in webhooks] *)
Example insecure_webhooks :
  validate (VObj [("webhooks", VArr [VStr "http://example.com/webhook"])]) = ZodError.
Proof. vm_compute. reflexivity. Qed.

(** The schema of [redirectUrl] asks for a URL of any scheme: an http
    URL is accepted (the test [should reject non-secure URLs in
    redirectUrl] expects the contrary). *)
Example http_redirectUrl :
  validate (VObj [("redirectUrl", VStr "http://example.com/redirect")])
  = Ok (VObj [("chainIds", VArr []); ("tokenSymbols", VArr []);
              ("redirectUrl", VStr "http://example.com/redirect")]).
Proof. vm_compute. reflexivity. Qed.

(** Array indices come first among the keys of the result, [__proto__]
    is not copied and an undefined property is removed. *)
Example other_properties :
  validate (VObj [("tokens", VStr ""); ("memo", VStr "x"); ("gone", VUndefined);
                  ("__proto__", VNull); ("7", VBool true)])
  = Ok (VObj [("7", VBool true); ("chainIds", VArr []);
              ("tokenSymbols", VArr [VStr ""]); ("memo", VStr "x")]).
Proof. vm_compute. reflexivity. Qed.

(** A numeric string in an array is not resolved (see
    [resolveChainIdOrShortName]); in a comma-separated string it is, by
    the preprocessing step. *)
Example numeric_strings :
  validate (VObj [("chains", VArr [VStr "1"; VStr "eth"])])
  = Ok (VObj [("chainIds", VArr [VNum (int 1)]); ("tokenSymbols", VArr [])])
  /\ validate (VObj [("chains", VStr "1,oeth")])
     = Ok (VObj [("chainIds", VArr [VNum (int 1); VNum (int 10)]);
                 ("tokenSymbols", VArr [])]).
Proof. split; vm_compute; reflexivity. Qed.

(** The example of the documentation of [convertPreferencesToText]. *)
Example serialized_preferences :
  serialize [("chainIds", VArr [VNum (int 1); VNum (int 10)]);
             ("tokenSymbols", VArr [VStr "ETH"; VStr "DAI"]);
             ("redirectUrl", VStr "https://example.com")]
  = Return (VStr (quoted
      "{'tokens':'ETH,DAI','chains':'eth,oeth','redirectUrl':'https://example.com'}")).
Proof. vm_compute. reflexivity. Qed.

(** A [chainIds] that is no array has no [map]. *)
Example serialize_throws :
  serialize [("chainIds", VStr "1,10")] = Throw TypeError.
Proof. reflexivity. Qed.

(** An element of [tokenSymbols] whose own [toString] is no function has
    no primitive value: [join] throws, whatever [tokens] holds, and
    nothing is serialized.  An element that inherits [toString] is joined
    as [[object Object]], and the own [tokens] is what is serialized. *)
Example serialize_throws_in_join :
  serialize [("tokenSymbols", VArr [VObj [("toString", VNum (int 1))]]);
             ("tokens", VStr "all")]
  = Throw TypeError
  /\ Utils.arrayToCommaString (host := Example.host) [VObj []; VNull; VStr "a"]
     = Return "[object Object],,a"
  /\ serialize [("tokenSymbols", VArr [VObj []]); ("tokens", VStr "all")]
     = Return (VStr (quoted "{'tokens':'all'}")).
Proof. repeat split; vm_compute; reflexivity. Qed.

End Scenarios.

(* ================================================================== *)
(** * The chain registry *)
(* ================================================================== *)

Module RegistryResults.
Import Zod Notions ObjectFacts ZodFacts FieldFacts Constants Utils Validation.

Lemma find_first {A} (p : A -> bool) (l : list A) (x : A) :
  find p l = Some x
  <-> exists before after,
        l = (before ++ x :: after)%list /\ p x = true
        /\ forallb (fun y => negb (p y)) before = true.
Proof.
  induction l as [| y l IH]; simpl.
  - split; [discriminate |]. intros [[| ? ?] [after [H _]]]; discriminate.
  - destruct (p y) eqn:E.
    + split.
      * intros [= ->]. exists [], l. auto.
      * intros [[| z before] [after [H [Px F]]]]; simpl in *.
        -- congruence.
        -- injection H as <- _. rewrite E in F. discriminate.
    + rewrite IH. split.
      * intros [before [after [-> [Px F]]]].
        exists (y :: before), after. simpl. rewrite E. auto.
      * intros [[| z before] [after [H [Px F]]]]; simpl in *.
        -- injection H as -> _. congruence.
        -- injection H as <- ->. rewrite E in F. eauto.
Qed.

Lemma find_none {A} (p : A -> bool) (l : list A) :
  find p l = None <-> forall x, In x l -> p x = false.
Proof.
  split.
  - intros H x. now apply find_none.
  - intros H. destruct (find p l) as [x |] eqn:E; [| reflexivity].
    apply find_some in E as [E1 E2]. rewrite (H _ E1) in E2. discriminate.
Qed.

(** Every entry of the table maps a short name to a number. *)
Lemma CHAIN_SHORT_NAMES_numbers (name : string) (v : value) :
  In (name, v) CHAIN_SHORT_NAMES -> exists id, v = VNum id.
Proof.
  simpl. intros H.
  repeat (destruct H as [[= <- <-] | H]; [eauto |]). contradiction.
Qed.

(** C7. For every numeric chain id [n], [chainIdToShortName] answers the
    short name of the first entry of [CHAIN_SHORT_NAMES], in declaration
    order, whose id is [=== n], and [undefined] when no entry has such an
    id; [oeth] and [op] map to the same id and [oeth] is declared first,
    so that id is answered with [oeth]. *)
Theorem chainIdToShortName_first_match (n : number) :
  (forall name,
      chainIdToShortName (VNum n) = VStr name
      <-> exists before id after,
            CHAIN_SHORT_NAMES = (before ++ (name, VNum id) :: after)%list
            /\ num_eqb n id = true
            /\ forall name' id', In (name', VNum id') before -> num_eqb n id' = false)
  /\ (chainIdToShortName (VNum n) = VUndefined
      <-> forall name id, In (name, VNum id) CHAIN_SHORT_NAMES -> num_eqb n id = false)
  /\ own "oeth" CHAIN_SHORT_NAMES = Some (VNum optimism.(id))
  /\ own "op" CHAIN_SHORT_NAMES = Some (VNum optimism.(id))
  /\ chainIdToShortName (VNum optimism.(id)) = VStr "oeth".
Proof.
  set (p := fun entry : string * value =>
              match snd entry with
              | VNum id => strict_eq_num (VNum n) id
              | _ => false
              end).
  assert (forall r, chainIdToShortName (VNum n) = r
                    <-> match find p CHAIN_SHORT_NAMES with
                        | Some entry => VStr (fst entry)
                        | None => VUndefined
                        end = r) as Hdef by (intros r; reflexivity).
  repeat split; try reflexivity.
  - rewrite Hdef. destruct (find p CHAIN_SHORT_NAMES) as [[name' v] |] eqn:F;
      [| discriminate].
    intros [= ->]. apply find_first in F as [before [after [E [Px F]]]].
    unfold p in Px. simpl in Px. destruct v as [| | |id| | | |]; try discriminate.
    exists before, id, after. repeat split; [exact E | exact Px |].
    intros name' id' Hin. rewrite forallb_forall in F.
    apply F in Hin. unfold p in Hin. simpl in Hin. now apply negb_true_iff in Hin.
  - intros [before [id [after [E [Px F]]]]]. rewrite Hdef.
    assert (find p CHAIN_SHORT_NAMES = Some (name, VNum id)) as ->; [| reflexivity].
    apply find_first. exists before, after. repeat split; [exact E | exact Px |].
    apply forallb_forall. intros [name' v] Hin.
    destruct (CHAIN_SHORT_NAMES_numbers name' v) as [id' ->].
    { rewrite E. apply in_or_app. now left. }
    unfold p. simpl. apply negb_true_iff. eauto.
  - rewrite Hdef. destruct (find p CHAIN_SHORT_NAMES) as [entry |] eqn:F;
      [discriminate |].
    intros _ name id Hin. rewrite find_none in F. exact (F _ Hin).
  - intros H. rewrite Hdef.
    assert (find p CHAIN_SHORT_NAMES = None) as ->; [| reflexivity].
    apply find_none. intros [name v] Hin.
    destruct (CHAIN_SHORT_NAMES_numbers name v Hin) as [id ->].
    unfold p. simpl. eauto.
Qed.

Section Resolve.
Context {host : Host}.

(** C2 (the code departs from the claim). A string never passes
    [isValidNumber], which asks zod for a value of type number, so the
    numeric branch of [resolveChainIdOrShortName] is never taken: every
    string is lowercased and looked up in the table of short names.  The
    string ["1"] therefore resolves to [undefined], where the documentation
    of the function promises 1.  The lookups of ["ETH"] and ["eth"] answer 1
    as claimed.  The table is asked with [in], which also finds what objects
    inherit: the name [constructor] resolves to a function, not to
    [undefined]. *)
Theorem resolveChainIdOrShortName_numeric_string :
  (forall s, isValidNumber (VStr s) = false)
  /\ (forall s, resolveChainIdOrShortName s
                = if has CHAIN_SHORT_NAMES (toLowerCase s)
                  then get CHAIN_SHORT_NAMES (toLowerCase s)
                  else VUndefined)
  /\ resolveChainIdOrShortName "1" = VUndefined
  /\ resolveChainIdOrShortName "ETH" = VNum (int 1)
  /\ resolveChainIdOrShortName "eth" = VNum (int 1)
  /\ resolveChainIdOrShortName "constructor" = VFun "Object".
Proof. repeat split. Qed.

End Resolve.

End RegistryResults.

(* ================================================================== *)
(** * Input normalization and the chain field *)
(* ================================================================== *)

Module NormalizationResults.
Import Zod Notions ObjectFacts ZodFacts FieldFacts PipelineFacts.
Import Constants Utils Validation.

Section Normalization.
Context {host : Host}.

Lemma parseInput_malformed (s : string) :
  trim s <> "" -> JSON_parse s = None -> parseInput (VStr s) = VObj [].
Proof.
  intros Hs Hp. unfold parseInput.
  rewrite (proj2 (String.eqb_neq (trim s) "") Hs), Hp. reflexivity.
Qed.

Lemma parseInput_blank (s : string) :
  trim s = "" -> parseInput (VStr s) = VStr s.
Proof. intros Hs. unfold parseInput. now rewrite Hs. Qed.

Lemma empty_object_defaults : PreferencesSchema (VObj []) = Ok defaults.
Proof. reflexivity. Qed.

(** C4, amended. For every string that is not blank (it does not trim
    to the empty string) and that [JSON.parse] rejects, validation does
    not throw: [{}] stands in for the input and the result is
    [{chainIds: [], tokenSymbols: []}], without any other key. *)
Theorem malformed_json_yields_defaults (s : string) :
  trim s <> "" ->
  JSON_parse s = None ->
  parseInput (VStr s) = VObj []
  /\ PreferencesSchema (VStr s) = Ok defaults.
Proof.
  intros Hs Hp. pose proof (parseInput_malformed s Hs Hp) as E.
  split; [exact E |].
  transitivity (PreferencesSchema (VObj [])); [| apply empty_object_defaults].
  unfold PreferencesSchema, preprocess. now rewrite E.
Qed.

(** C10. For the empty string, and for every string of white space only,
    no JSON decoding is attempted (the preprocessing step hands the string
    back whatever [JSON.parse] would make of it) and validation fails with
    a ZodError, because a string is not an object; a malformed string that
    is not blank is replaced by [{}] and validates to the defaults. *)
Theorem blank_string_is_rejected (s : string) :
  trim s = "" ->
  parseInput (VStr s) = VStr s
  /\ PreferencesSchema (VStr s) = ZodError
  /\ (forall s', trim s' <> "" -> JSON_parse s' = None ->
                 PreferencesSchema (VStr s') = Ok defaults).
Proof.
  intros Hs. pose proof (parseInput_blank s Hs) as E.
  split; [exact E | split].
  - rewrite PreferencesSchema_spec, E. reflexivity.
  - intros s' Hs' Hp. unfold PreferencesSchema, preprocess.
    rewrite (parseInput_malformed s' Hs' Hp). apply empty_object_defaults.
Qed.

Lemma num_eqb_distinct (n : number) (a b : Z) :
  a <> b -> num_eqb n (int a) = true -> num_eqb n (int b) = false.
Proof.
  intros Hab. destruct n as [| neg | q]; simpl; try discriminate.
  intros Ha. apply Qeq_bool_iff in Ha.
  destruct (Qeq_bool q (inject_Z b)) eqn:Hb; [| reflexivity].
  apply Qeq_bool_iff in Hb. rewrite Ha in Hb.
  unfold Qeq, inject_Z in Hb. simpl in Hb. lia.
Qed.

(** The filter of the code keeps exactly the ids of the registry: zero
    is not one of them and [undefined] is no number. *)
Lemma supported_in_registry (v : value) : supported v = in_registry v.
Proof.
  unfold supported, in_registry. destruct v as [| | |n| | | |]; try reflexivity.
  cbn [strict_eq_num is_undefined negb andb].
  rewrite andb_true_r.
  match goal with |- negb ?z && ?e = _ => destruct e eqn:E end;
    [| now rewrite andb_false_r].
  rewrite andb_true_r. apply negb_true_iff.
  apply existsb_exists in E as [chain [Hin Hc]].
  simpl in Hin.
  repeat (destruct Hin as [<- | Hin];
          [revert Hc; apply num_eqb_distinct; discriminate |]).
  contradiction.
Qed.

(** C5. Whenever the chain schema accepts an input, its answer is the
    list of the resolved items that are ids of the supported-chain
    registry, in their order and with their repetitions: an answer holds
    numbers of the registry only.  What resolves to [undefined], to zero or
    to an id outside the registry is dropped and raises no error: every
    array of strings and numbers is accepted, and [[999999]] gives the
    empty list. *)
Theorem ChainConfigSchema_supported_only (input out : value) :
  ChainConfigSchema input = Ok out ->
  (exists items,
      chainItems input = VArr items
      /\ out = VArr (filter in_registry (map resolveChain items)))
  /\ Forall (fun v => exists n chain,
                 v = VNum n /\ In chain SUPPORTED_CHAINS
                 /\ num_eqb n chain.(id) = true /\ num_eqb n (int 0) = false)
            (elements out)
  /\ in_registry VUndefined = false
  /\ in_registry (VNum (int 0)) = false
  /\ (forall items, forallb is_chain_item items = true ->
        ChainConfigSchema (VArr items)
        = Ok (VArr (filter in_registry (map resolveChain items))))
  /\ ChainConfigSchema (VArr [VNum (int 999999)]) = Ok (VArr []).
Proof.
  intros H. apply ChainConfigSchema_Ok in H as [items [E1 [E2 ->]]].
  assert (forall l, filter supported l = filter in_registry l) as Hf.
  { intros l. apply filter_ext. exact supported_in_registry. }
  repeat split; try reflexivity.
  - exists items. split; [exact E1 |]. now rewrite Hf.
  - cbn [elements]. apply Forall_forall. intros v Hv.
    apply filter_In in Hv as [_ Hv].
    pose proof Hv as Hr. rewrite supported_in_registry in Hr.
    destruct v as [| | |n| | | |]; try discriminate.
    apply existsb_exists in Hr as [chain [Hin Hc]].
    exists n, chain. repeat split; auto.
    unfold supported in Hv. cbn [strict_eq_num] in Hv.
    apply andb_prop in Hv as [Hv _]. apply andb_prop in Hv as [Hv _].
    now apply negb_true_iff in Hv.
  - intros items' Hi. rewrite <- Hf.
    apply ChainConfigSchema_Ok. exists items'. auto.
Qed.

End Normalization.

(** C10 at the empty string and at a string of two spaces. *)
Lemma blank_string_is_rejected_witness :
  (parseInput (host := Example.host) (VStr "") = VStr ""
   /\ PreferencesSchema (host := Example.host) (VStr "") = ZodError)
  /\ (parseInput (host := Example.host) (VStr "  ") = VStr "  "
      /\ PreferencesSchema (host := Example.host) (VStr "  ") = ZodError).
Proof.
  destruct (blank_string_is_rejected (host := Example.host) "" eq_refl)
    as [P [V _]].
  destruct (blank_string_is_rejected (host := Example.host) "  " eq_refl)
    as [P' [V' _]].
  repeat split; assumption.
Defined.

(** C4, amended, at the string [{not valid]. *)
Lemma malformed_json_yields_defaults_witness :
  parseInput (host := Example.host) (VStr "{not valid") = VObj []
  /\ PreferencesSchema (host := Example.host) (VStr "{not valid") = Ok defaults.
Proof.
  apply (malformed_json_yields_defaults (host := Example.host) "{not valid").
  - discriminate.
  - reflexivity.
Defined.

(** C4 as stated fails at a string of one space: it is not empty and
    [JSON.parse] rejects it, yet it is not replaced by [{}] and
    validation throws. *)
Lemma blank_string_not_recovered :
  " " <> ""
  /\ JSON_parse (Host := Example.host) " " = None
  /\ parseInput (host := Example.host) (VStr " ") = VStr " "
  /\ PreferencesSchema (host := Example.host) (VStr " ") = ZodError.
Proof. repeat split. discriminate. Qed.

(** C5 at the input ["eth,999999,oeth,eth"]. *)
Lemma ChainConfigSchema_supported_only_witness :
  ChainConfigSchema (host := Example.host) (VStr "eth,999999,oeth,eth")
  = Ok (VArr [VNum (int 1); VNum (int 10); VNum (int 1)])
  /\ Forall (fun v => exists n chain,
                 v = VNum n /\ In chain SUPPORTED_CHAINS
                 /\ num_eqb n chain.(id) = true /\ num_eqb n (int 0) = false)
            [VNum (int 1); VNum (int 10); VNum (int 1)].
Proof.
  split; [reflexivity |].
  exact (proj1 (proj2 (ChainConfigSchema_supported_only (host := Example.host)
                         (VStr "eth,999999,oeth,eth")
                         (VArr [VNum (int 1); VNum (int 10); VNum (int 1)])
                         eq_refl))).
Defined.

End NormalizationResults.

(* ================================================================== *)
(** * The merge transform *)
(* ================================================================== *)

Module MergeResults.
Import Zod Notions ObjectFacts ZodFacts FieldFacts PipelineFacts.
Import Constants Utils Validation.

Section Merge.
Context {host : Host}.

Lemma recognized_false (k : string) :
  recognized k = false ->
  (k =? "chainIds") = false /\ (k =? "tokenSymbols") = false
  /\ existsb (String.eqb k) ["redirectUrl"; "currency"; "amount"; "webhooks"; "og"] = false
  /\ existsb (String.eqb k) ["chains"; "tokens"] = false.
Proof.
  unfold recognized, knownKeys. cbn [existsb]. intros H.
  repeat (apply orb_false_elim in H as [? H]).
  repeat split; auto.
  - repeat (apply orb_false_intro; auto).
  - repeat (apply orb_false_intro; auto).
Qed.

Lemma find_unrecognized (k : string) :
  recognized k = false ->
  find (fun ks => fst ks =? k) PreferencesShape = None.
Proof.
  intros R. apply find_key_absent. rewrite knownKeys_shape. intros Hin.
  assert (recognized k = true); [| congruence].
  apply existsb_exists. exists k. split; [exact Hin | apply String.eqb_refl].
Qed.

(** A property outside the shape, as the transform returns it. *)
Lemma own_unrecognized (o : object) (k : string) :
  recognized k = false ->
  own k (props (mergePreferences (VObj (parsedData o))))
  = if k =? "__proto__" then None
    else match own k o with Some VUndefined => None | r => r end.
Proof.
  intros R. rewrite own_mergePreferences by apply NoDup_parsedData.
  destruct (recognized_false k R) as [-> [-> [-> ->]]].
  rewrite own_parsedData, R, (find_unrecognized k R).
  cbn [negb andb]. unfold hasOwn, get.
  destruct (own k o) as [v |]; destruct (k =? "__proto__"); reflexivity.
Qed.

(** C1, amended. For every input whose mapping [o] validates, with
    canonical output [result]:
    - [chainIds] is the validated [chains] field when [chains] is present
      (its value is not undefined), else the validated [chainIds] field when
      that one is present, else the empty array;
    - [tokenSymbols] is the validated [tokens] field, else the validated
      [tokenSymbols] field, else the empty array, in the same way;
    - [chains] and [tokens] are no keys of the output;
    - every unrecognized key other than [__proto__] whose value is not
      undefined is in the output with its value unchanged, and an
      unrecognized key whose value is undefined is not in the output. *)
Theorem canonical_output (input : value) (o : object) (out : value) :
  parseInput input = VObj o ->
  PreferencesSchema input = Ok out ->
  exists result,
    out = VObj result
    /\ (get o "chains" <> VUndefined ->
        exists chains, ChainConfigSchema (get o "chains") = Ok chains
                       /\ own "chainIds" result = Some chains)
    /\ (get o "chains" = VUndefined -> get o "chainIds" <> VUndefined ->
        exists chainIds, ChainConfigSchema (get o "chainIds") = Ok chainIds
                         /\ own "chainIds" result = Some chainIds)
    /\ (get o "chains" = VUndefined -> get o "chainIds" = VUndefined ->
        own "chainIds" result = Some (VArr []))
    /\ (get o "tokens" <> VUndefined ->
        exists tokens, TokenConfigSchema (get o "tokens") = Ok tokens
                       /\ own "tokenSymbols" result = Some tokens)
    /\ (get o "tokens" = VUndefined -> get o "tokenSymbols" <> VUndefined ->
        exists tokenSymbols,
          TokenConfigSchema (get o "tokenSymbols") = Ok tokenSymbols
          /\ own "tokenSymbols" result = Some tokenSymbols)
    /\ (get o "tokens" = VUndefined -> get o "tokenSymbols" = VUndefined ->
        own "tokenSymbols" result = Some (VArr []))
    /\ own "chains" result = None
    /\ own "tokens" result = None
    /\ (forall k v, recognized k = false -> k <> "__proto__" ->
                    own k o = Some v -> v <> VUndefined -> own k result = Some v)
    /\ (forall k, recognized k = false -> own k o = Some VUndefined ->
                  own k result = None).
Proof.
  intros Hin H. rewrite PreferencesSchema_spec, Hin in H.
  destruct (fields_accepted o) eqn:A; [| discriminate].
  injection H as <-.
  exists (props (mergePreferences (VObj (parsedData o)))).
  split; [reflexivity |].
  destruct (fields_accepted_field o ("chains", optional ChainConfigSchema) A)
    as [chains Hchains]; [simpl; tauto |].
  destruct (fields_accepted_field o ("chainIds", optional ChainConfigSchema) A)
    as [chainIds HchainIds]; [simpl; tauto |].
  destruct (fields_accepted_field o ("tokens", optional TokenConfigSchema) A)
    as [tokens Htokens]; [simpl; tauto |].
  destruct (fields_accepted_field o ("tokenSymbols", optional TokenConfigSchema) A)
    as [tokenSymbols HtokenSymbols]; [simpl; tauto |].
  cbn [fst snd] in *.
  pose proof (get_parsedData_known o ("chains", optional ChainConfigSchema) chains)
    as Gchains.
  pose proof (get_parsedData_known o ("chainIds", optional ChainConfigSchema) chainIds)
    as GchainIds.
  pose proof (get_parsedData_known o ("tokens", optional TokenConfigSchema) tokens)
    as Gtokens.
  pose proof (get_parsedData_known o ("tokenSymbols", optional TokenConfigSchema)
                tokenSymbols) as GtokenSymbols.
  cbn [fst snd] in *.
  specialize (Gchains ltac:(simpl; tauto) Hchains).
  specialize (GchainIds ltac:(simpl; tauto) HchainIds).
  specialize (Gtokens ltac:(simpl; tauto) Htokens).
  specialize (GtokenSymbols ltac:(simpl; tauto) HtokenSymbols).
  pose proof (own_chainIds _ (NoDup_parsedData o)) as OwnC.
  pose proof (own_tokenSymbols _ (NoDup_parsedData o)) as OwnT.
  rewrite Gchains, GchainIds in OwnC. rewrite Gtokens, GtokenSymbols in OwnT.
  destruct (own_chains_tokens _ (NoDup_parsedData o)) as [NoChains NoTokens].
  repeat split; try assumption.
  - intros P. rewrite (optional_present _ _ P) in Hchains.
    exists chains. split; [exact Hchains |]. rewrite OwnC.
    apply ChainConfigSchema_array in Hchains as [ids ->]. reflexivity.
  - intros P Q. rewrite P in Hchains. injection Hchains as <-.
    rewrite (optional_present _ _ Q) in HchainIds.
    exists chainIds. split; [exact HchainIds |]. rewrite OwnC.
    apply ChainConfigSchema_array in HchainIds as [ids ->]. reflexivity.
  - intros P Q. rewrite P in Hchains. rewrite Q in HchainIds.
    injection Hchains as <-. injection HchainIds as <-.
    rewrite OwnC. reflexivity.
  - intros P. rewrite (optional_present _ _ P) in Htokens.
    exists tokens. split; [exact Htokens |]. rewrite OwnT.
    apply TokenConfigSchema_array in Htokens as [items ->]. reflexivity.
  - intros P Q. rewrite P in Htokens. injection Htokens as <-.
    rewrite (optional_present _ _ Q) in HtokenSymbols.
    exists tokenSymbols. split; [exact HtokenSymbols |]. rewrite OwnT.
    apply TokenConfigSchema_array in HtokenSymbols as [items ->]. reflexivity.
  - intros P Q. rewrite P in Htokens. rewrite Q in HtokenSymbols.
    injection Htokens as <-. injection HtokenSymbols as <-.
    rewrite OwnT. reflexivity.
  - intros k v R P E D. rewrite (own_unrecognized o k R), E.
    rewrite (proj2 (String.eqb_neq k "__proto__") P). now destruct v.
  - intros k R E. rewrite (own_unrecognized o k R), E.
    now destruct (k =? "__proto__").
Qed.

End Merge.

(** C1, amended, at
    [{chains: "eth,999999", chainIds: [137], tokenSymbols: ["DAI"], note: "x", gone: undefined}]. *)
Lemma canonical_output_witness :
  exists result,
    PreferencesSchema (host := Example.host)
      (VObj [("chains", VStr "eth,999999"); ("chainIds", VArr [VNum (int 137)]);
             ("tokenSymbols", VArr [VStr "DAI"]); ("note", VStr "x");
             ("gone", VUndefined)])
    = Ok (VObj result)
    /\ own "chainIds" result = Some (VArr [VNum (int 1)])
    /\ own "tokenSymbols" result = Some (VArr [VStr "DAI"])
    /\ own "chains" result = None
    /\ own "note" result = Some (VStr "x")
    /\ own "gone" result = None.
Proof.
  assert (parseInput (host := Example.host)
            (VObj [("chains", VStr "eth,999999"); ("chainIds", VArr [VNum (int 137)]);
                   ("tokenSymbols", VArr [VStr "DAI"]); ("note", VStr "x");
                   ("gone", VUndefined)])
          = VObj [("chains", VStr "eth,999999"); ("chainIds", VArr [VNum (int 137)]);
                  ("tokenSymbols", VArr [VStr "DAI"]); ("note", VStr "x");
                  ("gone", VUndefined)]) as Hin by reflexivity.
  assert (PreferencesSchema (host := Example.host)
            (VObj [("chains", VStr "eth,999999"); ("chainIds", VArr [VNum (int 137)]);
                   ("tokenSymbols", VArr [VStr "DAI"]); ("note", VStr "x");
                   ("gone", VUndefined)])
          = Ok (VObj [("chainIds", VArr [VNum (int 1)]);
                      ("tokenSymbols", VArr [VStr "DAI"]); ("note", VStr "x")]))
    as Hout by (vm_compute; reflexivity).
  destruct (canonical_output _ _ _ Hin Hout)
    as [result [E [C1 [_ [_ [_ [T2 [_ [NC [_ [U1 U2]]]]]]]]]]].
  injection E as <-.
  eexists. split; [exact Hout |].
  destruct (C1 ltac:(vm_compute; discriminate)) as [chains [Ec Oc]].
  destruct (T2 ltac:(vm_compute; reflexivity) ltac:(vm_compute; discriminate))
    as [tokens [Et Ot]].
  vm_compute in Ec. vm_compute in Et.
  injection Ec as <-. injection Et as <-.
  split; [exact Oc | split; [exact Ot | split; [exact NC | split]]].
  - apply (U1 "note" (VStr "x")); [reflexivity | discriminate | reflexivity | discriminate].
  - apply (U2 "gone"); reflexivity.
Defined.

(** C1 as stated fails at [{note: undefined}]: [note] is an unrecognized
    key of an accepted input, and the output does not have it.  It fails
    as well at an object with an own [__proto__] property, as [JSON.parse]
    makes them: zod does not copy that key. *)
Lemma undefined_property_is_dropped :
  (PreferencesSchema (host := Example.host) (VObj [("note", VUndefined)]) = Ok defaults
   /\ recognized "note" = false
   /\ own "note" [("note", VUndefined)] = Some VUndefined
   /\ own "note" (props defaults) = None)
  /\ (PreferencesSchema (host := Example.host) (VObj [("__proto__", VStr "x")])
      = Ok defaults
      /\ recognized "__proto__" = false
      /\ own "__proto__" [("__proto__", VStr "x")] = Some (VStr "x")
      /\ own "__proto__" (props defaults) = None).
Proof. repeat split. Qed.

End MergeResults.

(* ================================================================== *)
(** * The failures of validation *)
(* ================================================================== *)

Module FailureResults.
Import Zod Notions ObjectFacts ZodFacts FieldFacts PipelineFacts.
Import Constants Utils Validation.

Section Failures.
Context {host : Host}.



















End Failures.



End FailureResults.

(* ================================================================== *)
(** * The text serializer *)
(* ================================================================== *)

Module SerializerResults.
Import Zod Notions ObjectFacts ZodFacts FieldFacts PipelineFacts.
Import Constants Utils Validation.

Section Serializer.
Context {host : Host}.

Lemma own_assign_any (k k' : string) (v : value) (o : object) :
  own k (assign k' v o)
  = if (k' =? k) && negb (negb (hasOwn k' o) && (k' =? "__proto__"))
    then Some v else own k o.
Proof.
  unfold assign.
  destruct (negb (hasOwn k' o) && (k' =? "__proto__")); cbn [negb].
  - now rewrite andb_false_r.
  - now rewrite own_define, andb_true_r.
Qed.

Lemma own_copied (preferences : object) (k : string) ks into :
  k <> "__proto__" -> k <> "chainIds" -> k <> "tokenSymbols" ->
  own k (copied preferences ks into)
  = if existsb (String.eqb k) ks then Some (get preferences k) else own k into.
Proof.
  intros P C T. unfold copied. revert into.
  induction ks as [| key ks IH]; intros into; simpl; [reflexivity |].
  rewrite IH. clear IH.
  destruct (existsb (String.eqb k) ks); [now rewrite orb_true_r |].
  rewrite orb_false_r.
  string_cases k key.
  - rewrite (proj2 (String.eqb_neq key "chainIds") C),
      (proj2 (String.eqb_neq key "tokenSymbols") T).
    cbn [negb andb]. rewrite own_assign_any, String.eqb_refl.
    now rewrite (proj2 (String.eqb_neq key "__proto__") P), andb_false_r.
  - destruct (negb (key =? "chainIds") && negb (key =? "tokenSymbols"));
      [| reflexivity].
    rewrite own_assign_any.
    now rewrite (proj2 (String.eqb_neq key k)) by congruence.
Qed.

Lemma existsb_keys (k : string) (o : object) :
  existsb (String.eqb k) (keys o) = hasOwn k o.
Proof.
  destruct (hasOwn k o) eqn:E.
  - apply existsb_exists. exists k. split; [now apply hasOwn_In | apply String.eqb_refl].
  - destruct (existsb _ _) eqn:F; [| reflexivity].
    apply existsb_exists in F as [x [Hx Ex]]. apply String.eqb_eq in Ex. subst x.
    apply hasOwn_In in Hx. congruence.
Qed.


Lemma join_elements_strings (l : list string) :
  join_elements ToString (map VStr l) = Return l.
Proof.
  induction l as [| s l IH]; [reflexivity |].
  cbn [map join_elements]. fold (join_elements ToString). rewrite IH. reflexivity.
Qed.

Lemma join_strings (l : list string) :
  arrayToCommaString (map VStr l) = Return (String.concat "," l).
Proof.
  unfold arrayToCommaString, join. cbn [ToString].
  now rewrite join_elements_strings.
Qed.

Lemma chainIdToShortName_cases (v : value) :
  chainIdToShortName v = VUndefined
  \/ exists name, chainIdToShortName v = VStr name /\ name <> "".
Proof.
  unfold chainIdToShortName.
  destruct (find _ CHAIN_SHORT_NAMES) as [[name w] |] eqn:F; [| now left].
  right. exists name. split; [reflexivity |].
  apply find_some in F as [Hin _]. simpl in Hin.
  repeat (destruct Hin as [[= <- <-] | Hin]; [discriminate |]). contradiction.
Qed.

Lemma shortNames_filter (ids : list number) :
  filter truthy (map chainIdToShortName (map VNum ids)) = map VStr (shortNames ids).
Proof.
  induction ids as [| id ids IH]; simpl; [reflexivity |].
  destruct (chainIdToShortName_cases (VNum id)) as [E | [name [E N]]]; rewrite E; simpl.
  - exact IH.
  - rewrite (proj2 (String.eqb_neq name "") N). simpl. now rewrite IH.
Qed.



(** The serializer throws what a [join] throws. *)
Lemma join_throws (preferences : object) (tokenSymbols : list value) (e : exception) :
  get preferences "chainIds" = VUndefined ->
  get preferences "tokenSymbols" = VArr tokenSymbols ->
  arrayToCommaString tokenSymbols = Throw e ->
  convertPreferencesToText preferences = Throw e.
Proof.
  intros C T J. unfold convertPreferencesToText, formatPreferences.
  now rewrite C, T, J.
Qed.

End Serializer.




End SerializerResults.

(* ================================================================== *)
(** * Validating a canonical object again *)
(* ================================================================== *)

Module IdempotenceResults.
Import Zod Notions ObjectFacts ZodFacts FieldFacts PipelineFacts.
Import Constants Utils Validation.

Section Idempotence.
Context {host : Host}.

Lemma preserving_idempotent (s : schema) : preserving s -> idempotent s.
Proof. intros P input data H. pose proof (P _ _ H) as ->. exact H. Qed.

Lemma optional_idempotent (s : schema) : idempotent s -> idempotent (optional s).
Proof.
  intros I input data H.
  assert (data = VUndefined \/ s data = Ok data) as [-> | H'].
  { destruct input; simpl in H; try (right; exact (I _ _ H)).
    injection H as <-. now left. }
  - reflexivity.
  - destruct data; try exact H'. reflexivity.
Qed.

Lemma og_idempotent :
  idempotent (object_ [("baseUrl", optional (url string_))] None).
Proof.
  intros input data. destruct input as [| | | | | |og|]; try discriminate.
  unfold object_. rewrite mergeObject_spec. cbn [map fst snd app forallb fold_left].
  rewrite andb_true_r.
  destruct (optional (url string_) (get og "baseUrl")) as [v |] eqn:E;
    [| discriminate].
  cbn [success]. intros [= <-].
  assert (optional (url string_) v = Ok v) as E'.
  { apply (optional_idempotent (url string_)) with (input := get og "baseUrl");
      [| exact E].
    apply preserving_idempotent, check_preserving, string_preserving. }
  unfold add_pair. cbn [negb andb String.eqb Ascii.eqb Bool.eqb].
  destruct (negb (is_undefined v) || has og "baseUrl") eqn:C.
  - rewrite mergeObject_spec. cbn [map fst snd app forallb fold_left].
    assert (get (assign "baseUrl" v []) "baseUrl" = v) as -> by reflexivity.
    rewrite E'. cbn [success andb add_pair].
    assert (has (assign "baseUrl" v []) "baseUrl" = true) as -> by reflexivity.
    now rewrite orb_true_r.
  - apply orb_false_elim in C as [C _]. destruct v; try discriminate.
    reflexivity.
Qed.

(** Every schema of the shape maps its own answers to themselves. *)
Lemma shape_idempotent (ks : string * schema) :
  In ks PreferencesShape -> idempotent (snd ks).
Proof.
  simpl. intros H.
  repeat (destruct H as [<- | H];
          [apply optional_idempotent; cbn [snd];
           first [ exact ChainConfigSchema_idempotent
                 | exact TokenConfigSchema_idempotent
                 | exact og_idempotent
                 | apply preserving_idempotent;
                   repeat first [ apply check_preserving
                                | apply array_preserving
                                | apply string_preserving
                                | apply number_preserving ] ] |]).
  contradiction.
Qed.

Lemma optional_Ok (s : schema) (x w : value) :
  optional s x = Ok w -> (x = VUndefined /\ w = VUndefined) \/ s x = Ok w.
Proof. destruct x; simpl; auto. intros [= <-]. auto. Qed.

(** The merged [chainIds] is again an answer of the chain schema. *)
Lemma merged_chains (x y a b : value) :
  optional ChainConfigSchema x = Ok a ->
  optional ChainConfigSchema y = Ok b ->
  ChainConfigSchema (nullish a (nullish b (VArr [])))
  = Ok (nullish a (nullish b (VArr [])))
  /\ exists ids, nullish a (nullish b (VArr [])) = VArr ids.
Proof.
  intros Ha Hb.
  apply optional_Ok in Ha as [[_ ->] | Ha].
  - apply optional_Ok in Hb as [[_ ->] | Hb].
    + split; [reflexivity | now exists []].
    + destruct (ChainConfigSchema_array _ _ Hb) as [ids ->].
      split; [exact (ChainConfigSchema_idempotent _ _ Hb) | simpl; eauto].
  - destruct (ChainConfigSchema_array _ _ Ha) as [ids ->].
    split; [exact (ChainConfigSchema_idempotent _ _ Ha) | simpl; eauto].
Qed.

Lemma merged_tokens (x y a b : value) :
  optional TokenConfigSchema x = Ok a ->
  optional TokenConfigSchema y = Ok b ->
  TokenConfigSchema (nullish a (nullish b (VArr [])))
  = Ok (nullish a (nullish b (VArr [])))
  /\ exists items, nullish a (nullish b (VArr [])) = VArr items.
Proof.
  intros Ha Hb.
  apply optional_Ok in Ha as [[_ ->] | Ha].
  - apply optional_Ok in Hb as [[_ ->] | Hb].
    + split; [reflexivity | now exists []].
    + destruct (TokenConfigSchema_array _ _ Hb) as [items ->].
      split; [exact (TokenConfigSchema_idempotent _ _ Hb) | simpl; eauto].
  - destruct (TokenConfigSchema_array _ _ Ha) as [items ->].
    split; [exact (TokenConfigSchema_idempotent _ _ Ha) | simpl; eauto].
Qed.

(** A field that the transform copies: [redirectUrl], [currency],
    [amount], [webhooks], [og]. *)
Lemma get_copied_field (data : object) (k : string) :
  NoDup (keys data) ->
  In k ["redirectUrl"; "currency"; "amount"; "webhooks"; "og"] ->
  get (props (mergePreferences (VObj data))) k = get data k.
Proof.
  intros ND Hin.
  assert (hasOwn k Object_prototype = false) as P.
  { simpl in Hin. repeat (destruct Hin as [<- | Hin]; [reflexivity |]). contradiction. }
  rewrite get_own by exact P. rewrite own_mergePreferences by exact ND.
  simpl in Hin.
  repeat (destruct Hin as [<- | Hin];
          [cbn [String.eqb Ascii.eqb Bool.eqb existsb orb];
           now destruct (get data _) |]).
  contradiction.
Qed.

(** C8. Validation is idempotent on its own output: when validation of
    [input] succeeds with the canonical object [out], validation of [out]
    succeeds too, and its result has the [chainIds] and the [tokenSymbols]
    of [out]. *)
Theorem validate_idempotent (input out : value) :
  PreferencesSchema input = Ok out ->
  exists out',
    PreferencesSchema out = Ok out'
    /\ own "chainIds" (props out') = own "chainIds" (props out)
    /\ own "tokenSymbols" (props out') = own "tokenSymbols" (props out)
    /\ field out' "chainIds" = field out "chainIds"
    /\ field out' "tokenSymbols" = field out "tokenSymbols".
Proof.
  intros H. rewrite PreferencesSchema_spec in H.
  destruct (parseInput input) as [| | | | | | o |]; try discriminate.
  destruct (fields_accepted o) eqn:A; [| discriminate].
  injection H as <-.
  set (data := parsedData o).
  pose proof (NoDup_parsedData o) as ND. fold data in ND.
  (* the fields of the first pass *)
  assert (forall ks, In ks PreferencesShape ->
            snd ks (get o (fst ks)) = Ok (get data (fst ks))) as First.
  { intros ks Hin. destruct (fields_accepted_field o ks A Hin) as [v Hv].
    rewrite Hv. f_equal. symmetry. now apply get_parsedData_known. }
  pose proof (First ("chains", optional ChainConfigSchema) ltac:(simpl; tauto)) as Fchains.
  pose proof (First ("chainIds", optional ChainConfigSchema) ltac:(simpl; tauto))
    as FchainIds.
  pose proof (First ("tokens", optional TokenConfigSchema) ltac:(simpl; tauto)) as Ftokens.
  pose proof (First ("tokenSymbols", optional TokenConfigSchema) ltac:(simpl; tauto))
    as FtokenSymbols.
  cbn [fst snd] in Fchains, FchainIds, Ftokens, FtokenSymbols.
  destruct (merged_chains _ _ _ _ Fchains FchainIds) as [Cok [ids Cids]].
  destruct (merged_tokens _ _ _ _ Ftokens FtokenSymbols) as [Tok [items Titems]].
  set (result := props (mergePreferences (VObj data))).
  assert (mergePreferences (VObj data) = VObj result) as Eout by reflexivity.
  rewrite Eout.
  (* what the second pass reads *)
  pose proof (own_chainIds data ND) as OwnC. fold result in OwnC.
  pose proof (own_tokenSymbols data ND) as OwnT. fold result in OwnT.
  destruct (own_chains_tokens data ND) as [NoC NoT]. fold result in NoC, NoT.
  assert (get result "chainIds" = nullish (get data "chains")
                                     (nullish (get data "chainIds") (VArr []))) as GC.
  { rewrite get_own by reflexivity. now rewrite OwnC. }
  assert (get result "tokenSymbols" = nullish (get data "tokens")
                                     (nullish (get data "tokenSymbols") (VArr []))) as GT.
  { rewrite get_own by reflexivity. now rewrite OwnT. }
  assert (get result "chains" = VUndefined) as GNC.
  { rewrite get_own by reflexivity. now rewrite NoC. }
  assert (get result "tokens" = VUndefined) as GNT.
  { rewrite get_own by reflexivity. now rewrite NoT. }
  assert (forall ks, In ks PreferencesShape ->
            exists v, snd ks (get result (fst ks)) = Ok v) as Second.
  { intros ks Hin. pose proof (shape_idempotent ks Hin) as I.
    pose proof (First ks Hin) as F. simpl in Hin.
    destruct Hin as [<- | [<- | [<- | [<- | Hin]]]]; cbn [fst snd] in *.
    - rewrite GC. rewrite Cids in Cok |- *. cbn [optional]. eauto.
    - rewrite GT. rewrite Titems in Tok |- *. cbn [optional]. eauto.
    - rewrite GNC. cbn. eauto.
    - rewrite GNT. cbn. eauto.
    - assert (get result (fst ks) = get data (fst ks)) as ->.
      { apply get_copied_field; [exact ND |].
        repeat (destruct Hin as [<- | Hin]; [simpl; tauto |]). contradiction. }
      exists (get data (fst ks)). exact (I _ _ F). }
  assert (fields_accepted result = true) as A'.
  { apply forallb_forall. intros ks Hin. apply success_Ok. now apply Second. }
  exists (mergePreferences (VObj (parsedData result))).
  assert (PreferencesSchema (VObj result)
          = Ok (mergePreferences (VObj (parsedData result)))) as E2.
  { rewrite PreferencesSchema_spec. cbn [parseInput]. now rewrite A'. }
  split; [exact E2 |].
  (* the fields of the second pass *)
  pose proof (NoDup_parsedData result) as ND'.
  assert (get (parsedData result) "chains" = VUndefined) as G2chains.
  { apply (get_parsedData_known result ("chains", optional ChainConfigSchema));
      [simpl; tauto |]. cbn [fst snd]. rewrite GNC. reflexivity. }
  assert (get (parsedData result) "tokens" = VUndefined) as G2tokens.
  { apply (get_parsedData_known result ("tokens", optional TokenConfigSchema));
      [simpl; tauto |]. cbn [fst snd]. rewrite GNT. reflexivity. }
  assert (get (parsedData result) "chainIds" = VArr ids) as G2chainIds.
  { apply (get_parsedData_known result
             ("chainIds", optional ChainConfigSchema)); [simpl; tauto |].
    cbn [fst snd]. rewrite GC, Cids. rewrite Cids in Cok. exact Cok. }
  assert (get (parsedData result) "tokenSymbols" = VArr items) as G2tokenSymbols.
  { apply (get_parsedData_known result
             ("tokenSymbols", optional TokenConfigSchema)); [simpl; tauto |].
    cbn [fst snd]. rewrite GT, Titems. rewrite Titems in Tok. exact Tok. }
  assert (own "chainIds" (props (mergePreferences (VObj (parsedData result))))
          = own "chainIds" result) as OC.
  { rewrite (own_chainIds _ ND'), G2chains, G2chainIds, OwnC, Cids. reflexivity. }
  assert (own "tokenSymbols" (props (mergePreferences (VObj (parsedData result))))
          = own "tokenSymbols" result) as OT.
  { rewrite (own_tokenSymbols _ ND'), G2tokens, G2tokenSymbols, OwnT, Titems.
    reflexivity. }
  split; [exact OC | split; [exact OT |]].
  change (mergePreferences (VObj (parsedData result)))
    with (VObj (props (mergePreferences (VObj (parsedData result))))).
  cbn [field]. rewrite !get_own by reflexivity.
  rewrite OC, OT. split; reflexivity.
Qed.

End Idempotence.

(** C8 at [{chains: "eth, 999999,op", tokens: "DAI, USDC", amount: 0}]. *)
Lemma validate_idempotent_witness :
  exists out out',
    PreferencesSchema (host := Example.host)
      (VObj [("chains", VStr "eth, 999999,op"); ("tokens", VStr "DAI, USDC");
             ("amount", VNum (int 0))])
    = Ok out
    /\ PreferencesSchema (host := Example.host) out = Ok out'
    /\ field out "chainIds" = VArr [VNum (int 1); VNum (int 10)]
    /\ field out' "chainIds" = field out "chainIds"
    /\ field out' "tokenSymbols" = field out "tokenSymbols".
Proof.
  assert (PreferencesSchema (host := Example.host)
            (VObj [("chains", VStr "eth, 999999,op"); ("tokens", VStr "DAI, USDC");
                   ("amount", VNum (int 0))])
          = Ok (VObj [("chainIds", VArr [VNum (int 1); VNum (int 10)]);
                      ("tokenSymbols", VArr [VStr "DAI"; VStr "USDC"]);
                      ("amount", VNum (int 0))])) as H by (vm_compute; reflexivity).
  destruct (validate_idempotent _ _ H) as [out' [H' [_ [_ [C T]]]]].
  eexists _, out'. split; [exact H |].
  split; [exact H' | split; [reflexivity | split; [exact C | exact T]]].
Defined.

End IdempotenceResults.

(* ================================================================== *)
(** * The string utilities *)
(* ================================================================== *)

Module StringUtilsResults.
Import Zod Notions ObjectFacts ZodFacts FieldFacts Constants Utils Validation.

Lemma trimEnd_involutive (s : string) : trimEnd (trimEnd s) = trimEnd s.
Proof.
  induction s as [| c s IH]; simpl; [reflexivity |].
  destruct (trimEnd s) as [| d t] eqn:E.
  - destruct (isWhiteSpace c) eqn:W; simpl; [reflexivity | now rewrite W].
  - change (trimEnd (String c (String d t)))
      with (match trimEnd (String d t) with
            | EmptyString => if isWhiteSpace c then EmptyString else String c EmptyString
            | String d' t' => String c (String d' t')
            end).
    now rewrite IH.
Qed.

Lemma trimStart_head (s : string) :
  trimStart s = "" \/ exists c t, trimStart s = String c t /\ isWhiteSpace c = false.
Proof.
  induction s as [| c s IH]; simpl; [now left |].
  destruct (isWhiteSpace c) eqn:W; [exact IH |]. right. eauto.
Qed.

Lemma trimEnd_head (c : ascii) (t : string) :
  isWhiteSpace c = false -> exists t', trimEnd (String c t) = String c t'.
Proof.
  intros W. simpl. destruct (trimEnd t); [rewrite W |]; eauto.
Qed.

Lemma trim_involutive (s : string) : trim (trim s) = trim s.
Proof.
  unfold trim. destruct (trimStart_head s) as [-> | [c [t [-> W]]]]; [reflexivity |].
  destruct (trimEnd_head c t W) as [t' E].
  assert (trimStart (trimEnd (String c t)) = trimEnd (String c t)) as ->.
  { rewrite E. simpl. now rewrite W. }
  apply trimEnd_involutive.
Qed.

Lemma has_comma_trimStart (s : string) :
  has_comma s = false -> has_comma (trimStart s) = false.
Proof.
  induction s as [| c s IH]; simpl; [reflexivity |].
  intros H. apply orb_false_elim in H as [Hc Hs].
  destruct (isWhiteSpace c); [auto |]. simpl. now rewrite Hc, Hs.
Qed.

Lemma has_comma_trimEnd (s : string) :
  has_comma s = false -> has_comma (trimEnd s) = false.
Proof.
  induction s as [| c s IH]; simpl; [reflexivity |].
  intros H. apply orb_false_elim in H as [Hc Hs]. specialize (IH Hs).
  destruct (trimEnd s) as [| d t].
  - destruct (isWhiteSpace c); [reflexivity |]. simpl. now rewrite Hc.
  - simpl in IH |- *. now rewrite Hc, IH.
Qed.

Lemma has_comma_trim (s : string) : has_comma s = false -> has_comma (trim s) = false.
Proof. intros H. apply has_comma_trimEnd, has_comma_trimStart, H. Qed.

Lemma split_comma_cons (s : string) : exists x xs, split_comma s = x :: xs.
Proof.
  induction s as [| c s [x [xs IH]]]; simpl; [eauto |].
  destruct (Ascii.eqb c ","); [eauto |]. rewrite IH. eauto.
Qed.

Lemma split_comma_length (s : string) : length (split_comma s) = S (commas s).
Proof.
  induction s as [| c s IH]; simpl; [reflexivity |].
  destruct (Ascii.eqb c ","); simpl; [now rewrite IH |].
  destruct (split_comma s); simpl in *; [discriminate | exact IH].
Qed.

Lemma split_comma_items (s : string) :
  Forall (fun x => has_comma x = false) (split_comma s).
Proof.
  induction s as [| c s IH]; simpl; [repeat constructor |].
  destruct (Ascii.eqb c ",") eqn:E; [now constructor |].
  destruct (split_comma s) as [| x xs]; [repeat constructor; simpl; now rewrite E |].
  inversion IH as [| ? ? Hx Hxs]; subst.
  constructor; [simpl; now rewrite E, Hx | exact Hxs].
Qed.

(** A string without comma, followed by a comma, is the first item. *)
Lemma split_comma_app (x rest : string) :
  has_comma x = false ->
  split_comma (x ++ String ","%char rest) = x :: split_comma rest.
Proof.
  induction x as [| c x IH]; simpl; [reflexivity |].
  intros H. apply orb_false_elim in H as [Hc Hx].
  now rewrite Hc, (IH Hx).
Qed.

Lemma split_comma_single (x : string) : has_comma x = false -> split_comma x = [x].
Proof.
  induction x as [| c x IH]; simpl; [reflexivity |].
  intros H. apply orb_false_elim in H as [Hc Hx].
  now rewrite Hc, (IH Hx).
Qed.

Lemma split_comma_concat (l : list string) :
  l <> [] -> Forall (fun x => has_comma x = false) l ->
  split_comma (String.concat "," l) = l.
Proof.
  induction l as [| x l IH]; [congruence |]. intros _ F.
  inversion F as [| ? ? Hx Hl]; subst.
  destruct l as [| y l].
  - simpl. now apply split_comma_single.
  - change (String.concat "," (x :: y :: l))
      with (x ++ String ","%char (String.concat "," (y :: l))).
    rewrite (split_comma_app _ _ Hx). f_equal. apply IH; [discriminate | exact Hl].
Qed.

Lemma commaStringToArray_items (s : string) : Forall is_item (commaStringToArray s).
Proof.
  unfold commaStringToArray. apply Forall_forall. intros x Hx.
  apply in_map_iff in Hx as [y [<- Hy]].
  pose proof (split_comma_items s) as F. rewrite Forall_forall in F.
  split; [apply has_comma_trim, F, Hy | apply trim_involutive].
Qed.

(** X1. [commaStringToArray] never answers the empty array: it answers
    one item more than the string has commas, and no item has a comma or
    white space at either end. *)
Theorem commaStringToArray_shape (s : string) :
  length (commaStringToArray s) = S (commas s)
  /\ Forall is_item (commaStringToArray s).
Proof.
  split; [| apply commaStringToArray_items].
  unfold commaStringToArray. rewrite length_map. apply split_comma_length.
Qed.

Section Joined.
Context {host : Host}.

Lemma arrayToCommaString_strings (l : list string) :
  arrayToCommaString (map VStr l) = Return (String.concat "," l).
Proof. apply SerializerResults.join_strings. Qed.

Lemma commaStringToArray_concat (l : list string) :
  l <> [] -> Forall is_item l ->
  commaStringToArray (String.concat "," l) = l.
Proof.
  intros N F. unfold commaStringToArray.
  rewrite split_comma_concat; [| exact N |].
  - apply FieldFacts.map_fixed. eapply Forall_impl; [| exact F]. now intros x [_ Hx].
  - eapply Forall_impl; [| exact F]. now intros x [Hx _].
Qed.

Lemma commaStringToArray_joined (l : list string) :
  l <> [] -> Forall is_item l ->
  (joined <- arrayToCommaString (map VStr l) ;; Return (commaStringToArray joined))
  = Return l.
Proof.
  intros N F. rewrite arrayToCommaString_strings. cbn [bind].
  now rewrite commaStringToArray_concat.
Qed.

(** X2. Joining and splitting are inverse on lists of items: a list that
    is not empty, of strings without comma and without white space at
    either end, is joined without an exception and read back from its
    comma string as it was.  The empty list is not: it is joined to the
    empty string, which is split into one empty item. *)
Theorem commaStringToArray_arrayToCommaString (l : list string) :
  l <> [] -> Forall is_item l ->
  (joined <- arrayToCommaString (map VStr l) ;; Return (commaStringToArray joined))
  = Return l
  /\ (joined <- arrayToCommaString [] ;; Return (commaStringToArray joined))
     = Return [""].
Proof. intros N F. split; [now apply commaStringToArray_joined | reflexivity]. Qed.

(** X3. Splitting normalizes: joining the items of a string and
    splitting again gives the same items. *)
Theorem commaStringToArray_normalizes (s : string) :
  (joined <- arrayToCommaString (map VStr (commaStringToArray s)) ;;
   Return (commaStringToArray joined))
  = Return (commaStringToArray s).
Proof.
  apply commaStringToArray_joined; [| apply commaStringToArray_items].
  unfold commaStringToArray. destruct (split_comma_cons s) as [x [xs ->]].
  discriminate.
Qed.

End Joined.

(** X2 at the list [["USDC"; "USDT"; "DAI"]]. *)
Lemma commaStringToArray_arrayToCommaString_witness :
  (joined <- arrayToCommaString (host := Example.host)
               (map VStr ["USDC"; "USDT"; "DAI"]) ;;
   Return (commaStringToArray joined))
  = Return ["USDC"; "USDT"; "DAI"]
  /\ (joined <- arrayToCommaString (host := Example.host) [] ;;
      Return (commaStringToArray joined))
     = Return [""].
Proof.
  apply (commaStringToArray_arrayToCommaString (host := Example.host)).
  - discriminate.
  - repeat constructor.
Defined.

End StringUtilsResults.

(* ================================================================== *)
(** * The two directions of the chain registry *)
(* ================================================================== *)

Module RegistryRoundTrip.
Import Zod Notions ObjectFacts ZodFacts FieldFacts Constants Utils Validation.

Lemma lower_char_involutive (c : ascii) : lower_char (lower_char c) = lower_char c.
Proof.
  destruct c as [[] [] [] [] [] [] [] []]; vm_compute; reflexivity.
Qed.

Lemma toLowerCase_involutive (s : string) : toLowerCase (toLowerCase s) = toLowerCase s.
Proof.
  induction s as [| c s IH]; simpl; [reflexivity |].
  now rewrite lower_char_involutive, IH.
Qed.

(** X4. [chainIdToShortName] answers [undefined] or one of the six names
    [eth], [oeth], [pol], [gno], [arb1], [base]: the alias [op] is never
    answered, and a value that is no number has no short name. *)
Theorem chainIdToShortName_range (v : value) :
  (chainIdToShortName v = VUndefined
   \/ exists name, In name ["eth"; "oeth"; "pol"; "gno"; "arb1"; "base"]
                   /\ chainIdToShortName v = VStr name)
  /\ chainIdToShortName v <> VStr "op"
  /\ (is_number v = false -> chainIdToShortName v = VUndefined).
Proof.
  unfold chainIdToShortName, CHAIN_SHORT_NAMES. cbn [find snd fst id mainnet optimism
    polygon gnosis arbitrum base].
  repeat split.
  - repeat match goal with
           | |- context [if ?b then _ else _] => destruct b
           end;
      try (left; reflexivity);
      right; eexists; (split; [| reflexivity]); simpl; tauto.
  - repeat match goal with
           | |- context [if ?b then _ else _] => destruct b
           end; discriminate.
  - intros N. destruct v as [| | |n| | | |]; try reflexivity.
    destruct n; try reflexivity. discriminate.
Qed.

Section Resolve.
Context {host : Host}.

Lemma supported_short_name (v : value) :
  supported v = true ->
  exists name, chainIdToShortName v = VStr name /\ name <> "".
Proof.
  intros S. pose proof S as S'. apply supported_number in S' as [n [-> _]].
  unfold supported in S. apply andb_prop in S as [_ S].
  apply existsb_exists in S as [chain [Hin E]].
  unfold chainIdToShortName.
  destruct (find _ CHAIN_SHORT_NAMES) as [[name w] |] eqn:F.
  - exists name. split; [reflexivity |].
    apply find_some in F as [Hin' _]. simpl in Hin'.
    repeat (destruct Hin' as [[= <- <-] | Hin']; [discriminate |]). contradiction.
  - exfalso. pose proof (find_none _ _ F) as N. cbv beta in N.
    simpl in Hin.
    destruct Hin as [<- | [<- | [<- | [<- | [<- | [<- | []]]]]]].
    + specialize (N ("eth", VNum mainnet.(id)) ltac:(simpl; tauto)). simpl in N.
      simpl in E. congruence.
    + specialize (N ("pol", VNum polygon.(id)) ltac:(simpl; tauto)). simpl in N.
      simpl in E. congruence.
    + specialize (N ("arb1", VNum arbitrum.(id)) ltac:(simpl; tauto)). simpl in N.
      simpl in E. congruence.
    + specialize (N ("oeth", VNum optimism.(id)) ltac:(simpl; tauto)). simpl in N.
      simpl in E. congruence.
    + specialize (N ("gno", VNum gnosis.(id)) ltac:(simpl; tauto)). simpl in N.
      simpl in E. congruence.
    + specialize (N ("base", VNum base.(id)) ltac:(simpl; tauto)). simpl in N.
      simpl in E. congruence.
Qed.

(** X5. What a short name of a number resolves to is that number: when
    [chainIdToShortName] answers a name for [n], [resolveChainIdOrShortName]
    answers for this name a chain id [=== n].  Every value that the filter
    of [ChainConfigSchema] keeps has a short name, so the serializer drops
    no chain id of a validated object. *)
Theorem short_name_resolves_back :
  (forall n name,
      chainIdToShortName (VNum n) = VStr name ->
      exists id, resolveChainIdOrShortName name = VNum id /\ num_eqb n id = true)
  /\ (forall v, supported v = true ->
                exists name, chainIdToShortName v = VStr name /\ name <> "").
Proof.
  split; [| exact supported_short_name].
  intros n name. unfold chainIdToShortName.
  destruct (find _ CHAIN_SHORT_NAMES) as [[name' w] |] eqn:F; [| discriminate].
  intros [= <-]. apply find_some in F as [Hin P]. simpl in Hin.
  repeat (destruct Hin as [[= <- <-] | Hin];
          [eexists; split; [reflexivity | exact P] |]).
  contradiction.
Qed.

(** X6. [resolveChainIdOrShortName] reads its argument up to letter
    case, and answers [undefined], or the id of a supported chain, or, for
    a name that is [constructor] or [__proto__] in lower case, what every
    object inherits under that name. *)
Theorem resolveChainIdOrShortName_range :
  (forall s t, toLowerCase s = toLowerCase t ->
               resolveChainIdOrShortName s = resolveChainIdOrShortName t)
  /\ (forall s, resolveChainIdOrShortName (toLowerCase s) = resolveChainIdOrShortName s)
  /\ (forall s,
        resolveChainIdOrShortName s = VUndefined
        \/ (exists chain, In chain SUPPORTED_CHAINS
                          /\ resolveChainIdOrShortName s = VNum chain.(id))
        \/ (toLowerCase s = "constructor"
            /\ resolveChainIdOrShortName s = VFun "Object")
        \/ (toLowerCase s = "__proto__"
            /\ resolveChainIdOrShortName s = VObj [])).
Proof.
  split; [| split].
  - intros s t E. rewrite !resolveChainIdOrShortName_lookup. now rewrite E.
  - intros s. rewrite !resolveChainIdOrShortName_lookup.
    now rewrite toLowerCase_involutive.
  - intros s. rewrite resolveChainIdOrShortName_lookup.
    pose proof (toLowerCase_involutive s) as L.
    set (key := toLowerCase s) in *. unfold has, get, hasOwn.
    destruct (own key CHAIN_SHORT_NAMES) as [v |] eqn:T.
    + cbn [orb]. right. left. apply own_In in T. simpl in T.
      destruct T as [T | [T | [T | [T | [T | [T | [T | []]]]]]]];
        injection T as _ <-;
        first [ exists mainnet; split; [simpl; tauto | reflexivity]
              | exists optimism; split; [simpl; tauto | reflexivity]
              | exists polygon; split; [simpl; tauto | reflexivity]
              | exists gnosis; split; [simpl; tauto | reflexivity]
              | exists arbitrum; split; [simpl; tauto | reflexivity]
              | exists base; split; [simpl; tauto | reflexivity] ].
    + destruct (own key Object_prototype) as [v |] eqn:P; [| now left].
      cbn [orb]. right. right. apply own_In in P. simpl in P.
      repeat (destruct P as [P | P];
              [injection P as K <-; rewrite <- K in L |- *;
               first [ discriminate L | left; split; reflexivity
                     | right; split; reflexivity ] |]).
      contradiction.
Qed.

End Resolve.
End RegistryRoundTrip.

(* ================================================================== *)
(** * What the field schemas accept *)
(* ================================================================== *)

Module FieldResults.
Import Zod Notions ObjectFacts ZodFacts FieldFacts Constants Utils Validation.

Section Fields.
Context {host : Host}.

Lemma forallb_is_string_strings (l : list string) :
  forallb is_string (map VStr l) = true.
Proof. induction l; simpl; auto. Qed.

(** X7. [TokenConfigSchema] accepts every string, and answers its
    trimmed items: the empty string gives one empty token, not the empty
    list.  It accepts an array exactly when every element is a string, and
    answers the array as it is (nothing is split or trimmed).  It rejects
    every other value. *)
Theorem TokenConfigSchema_accepts :
  (forall s, TokenConfigSchema (VStr s) = Ok (VArr (map VStr (commaStringToArray s))))
  /\ TokenConfigSchema (VStr "") = Ok (VArr [VStr ""])
  /\ (forall l, TokenConfigSchema (VArr l)
                = if forallb is_string l then Ok (VArr l) else ZodError)
  /\ (forall v, is_string v = false -> (forall l, v <> VArr l) ->
                TokenConfigSchema v = ZodError).
Proof.
  split; [| split; [reflexivity | split]].
  - intros s. apply TokenConfigSchema_Ok. eexists. split; [reflexivity |].
    split; [apply forallb_is_string_strings | reflexivity].
  - intros l. destruct (forallb is_string l) eqn:F.
    + apply TokenConfigSchema_Ok. exists l. auto.
    + apply success_false. rewrite success_TokenConfigSchema. exact F.
  - intros v S A. apply success_false. rewrite success_TokenConfigSchema.
    destruct v; try reflexivity; [discriminate | now destruct (A elems)].
Qed.

Lemma chainItems_string (s : string) :
  exists items, chainItems (VStr s) = VArr items
                /\ forallb is_chain_item items = true
                /\ length items = length (commaStringToArray s).
Proof.
  eexists. split; [reflexivity |]. split; [| now rewrite length_map].
  induction (commaStringToArray s) as [| item items IH]; [reflexivity |].
  cbn [map forallb]. cbv zeta in IH. rewrite IH, andb_true_r.
  destruct (isNaN (Number_of_string item)) eqn:E; [reflexivity |].
  unfold is_chain_item. simpl. now rewrite E.
Qed.

Lemma filter_length {A} (p : A -> bool) (l : list A) :
  (length (filter p l) <= length l)%nat.
Proof.
  induction l as [| x l IH]; simpl; [lia |]. destruct (p x); simpl; lia.
Qed.

(** X8. [ChainConfigSchema] never rejects a string: every comma string
    validates, to supported chain ids only, and to no more ids than the
    string has items.  An array is accepted exactly when each element is a
    string or a number other than NaN; any other value is rejected. *)
Theorem ChainConfigSchema_accepts :
  (forall s, exists ids,
        ChainConfigSchema (VStr s) = Ok (VArr ids)
        /\ forallb supported ids = true
        /\ (length ids <= S (commas s))%nat)
  /\ (forall l, ChainConfigSchema (VArr l)
                = if forallb is_chain_item l
                  then Ok (VArr (filter supported (map resolveChain l)))
                  else ZodError)
  /\ (forall v, is_string v = false -> (forall l, v <> VArr l) ->
                ChainConfigSchema v = ZodError).
Proof.
  split; [| split].
  - intros s. destruct (chainItems_string s) as [items [E [F L]]].
    exists (filter supported (map resolveChain items)). split; [| split].
    + apply ChainConfigSchema_Ok. exists items. auto.
    + apply forallb_filter.
    + etransitivity; [apply filter_length |].
      rewrite length_map, L. unfold commaStringToArray.
      rewrite length_map, StringUtilsResults.split_comma_length. lia.
  - intros l. destruct (forallb is_chain_item l) eqn:F.
    + apply ChainConfigSchema_Ok. exists l. auto.
    + apply success_false. rewrite success_ChainConfigSchema. exact F.
  - intros v S A. apply success_false. rewrite success_ChainConfigSchema.
    destruct v; try reflexivity; [discriminate | now destruct (A elems)].
Qed.

(** X9. When the runtime reads the empty string as the number 0, a
    chains string of blank items only (the empty string, [","], [" , "])
    validates to the empty list: each item becomes 0, which the filter
    drops. *)
Theorem blank_chains_give_no_chain (s : string) :
  Number_of_string "" = int 0 ->
  Forall (fun item => item = "") (commaStringToArray s) ->
  ChainConfigSchema (VStr s) = Ok (VArr []).
Proof.
  intros Z B. apply ChainConfigSchema_Ok.
  destruct (chainItems_string s) as [items [E [F _]]].
  exists items. split; [exact E | split; [exact F |]].
  clear F. injection E as <-. f_equal.
  induction B as [| item l -> _ IH]; [reflexivity |].
  cbn [map]. cbv zeta. rewrite Z. exact IH.
Qed.

End Fields.

(** X9 at the string [" , ,"]. *)
Lemma blank_chains_give_no_chain_witness :
  ChainConfigSchema (host := Example.host) (VStr " , ,") = Ok (VArr []).
Proof.
  apply (blank_chains_give_no_chain (host := Example.host) " , ,").
  - reflexivity.
  - repeat constructor.
Defined.

End FieldResults.

(* ================================================================== *)
(** * What validation returns *)
(* ================================================================== *)

Module OutputResults.
Import Zod Notions ObjectFacts ZodFacts FieldFacts PipelineFacts.
Import Constants Utils Validation.

Section Output.
Context {host : Host}.

Lemma PreferencesSchema_Ok (input out : value) :
  PreferencesSchema input = Ok out ->
  exists o, parseInput input = VObj o
            /\ fields_accepted o = true
            /\ out = mergePreferences (VObj (parsedData o)).
Proof.
  rewrite PreferencesSchema_spec.
  destruct (parseInput input) as [| | | | | | o |]; try discriminate.
  destruct (fields_accepted o) eqn:A; [| discriminate].
  intros [= <-]. eauto.
Qed.

(** Each schema of the shape answers what the transform reads. *)
Lemma first_pass (o : object) (ks : string * schema) :
  fields_accepted o = true -> In ks PreferencesShape ->
  snd ks (get o (fst ks)) = Ok (get (parsedData o) (fst ks)).
Proof.
  intros A Hin. destruct (fields_accepted_field o ks A Hin) as [v Hv].
  rewrite Hv. f_equal. symmetry. now apply get_parsedData_known.
Qed.

Lemma NoDup_delete_undefined (o : object) :
  NoDup (keys o) -> NoDup (keys (delete_undefined o)).
Proof.
  unfold delete_undefined. generalize (keys o) at 2. intros ks. revert o.
  induction ks as [| k ks IH]; intros o ND; simpl; [exact ND |].
  apply IH. destruct (is_undefined (get o k)); [| exact ND].
  now apply NoDup_filter_keys.
Qed.

Lemma NoDup_mergePreferences (data : object) :
  NoDup (keys (props (mergePreferences (VObj data)))).
Proof.
  unfold mergePreferences. cbn [props].
  apply NoDup_delete_undefined, NoDup_spread, NoDup_spread. constructor.
Qed.

Lemma values_of_supported (l : list value) :
  forallb supported l = true -> exists ids, l = map VNum ids.
Proof.
  induction l as [| v l IH]; simpl; [now exists [] |].
  intros H. apply andb_prop in H as [Hv Hl].
  destruct (IH Hl) as [ids ->]. apply supported_number in Hv as [n [-> _]].
  now exists (n :: ids).
Qed.

Lemma values_of_strings (l : list value) :
  forallb is_string l = true -> exists symbols, l = map VStr symbols.
Proof.
  induction l as [| v l IH]; simpl; [now exists [] |].
  intros H. apply andb_prop in H as [Hv Hl].
  destruct (IH Hl) as [symbols ->]. destruct v; try discriminate.
  now exists (s :: symbols).
Qed.

(** The two lists of the canonical object. *)
Lemma output_lists (o : object) :
  fields_accepted o = true ->
  exists ids symbols,
    own "chainIds" (props (mergePreferences (VObj (parsedData o))))
    = Some (VArr (map VNum ids))
    /\ forallb supported (map VNum ids) = true
    /\ own "tokenSymbols" (props (mergePreferences (VObj (parsedData o))))
       = Some (VArr (map VStr symbols)).
Proof.
  intros A.
  pose proof (NoDup_parsedData o) as ND.
  pose proof (first_pass o ("chains", optional ChainConfigSchema) A
                ltac:(simpl; tauto)) as Fc.
  pose proof (first_pass o ("chainIds", optional ChainConfigSchema) A
                ltac:(simpl; tauto)) as Fi.
  pose proof (first_pass o ("tokens", optional TokenConfigSchema) A
                ltac:(simpl; tauto)) as Ft.
  pose proof (first_pass o ("tokenSymbols", optional TokenConfigSchema) A
                ltac:(simpl; tauto)) as Fs.
  cbn [fst snd] in Fc, Fi, Ft, Fs.
  destruct (IdempotenceResults.merged_chains _ _ _ _ Fc Fi) as [Cok [ids Cids]].
  destruct (IdempotenceResults.merged_tokens _ _ _ _ Ft Fs) as [Tok [symbols Tsym]].
  rewrite Cids in Cok. rewrite Tsym in Tok.
  assert (forallb supported ids = true) as S.
  { apply ChainConfigSchema_Ok in Cok as [items [_ [_ E]]].
    injection E as ->. apply forallb_filter. }
  assert (forallb is_string symbols = true) as T.
  { apply TokenConfigSchema_Ok in Tok as [items [E1 [F E2]]].
    injection E2 as ->. exact F. }
  destruct (values_of_supported ids S) as [ns ->].
  destruct (values_of_strings symbols T) as [ss ->].
  exists ns, ss.
  split; [now rewrite (own_chainIds _ ND), Cids |].
  split; [exact S |].
  now rewrite (own_tokenSymbols _ ND), Tsym.
Qed.

(** X10. The canonical object of every accepted input has an array
    [chainIds] of supported chain ids and an array [tokenSymbols] of
    strings, whatever encoding the input used; it has no key whose value
    is undefined, and no key twice. *)
Theorem canonical_object_invariant (input out : value) :
  PreferencesSchema input = Ok out ->
  exists result ids symbols,
    out = VObj result
    /\ own "chainIds" result = Some (VArr ids)
    /\ forallb supported ids = true
    /\ own "tokenSymbols" result = Some (VArr symbols)
    /\ forallb is_string symbols = true
    /\ (forall k, own k result <> Some VUndefined)
    /\ NoDup (keys result).
Proof.
  intros H. apply PreferencesSchema_Ok in H as [o [_ [A ->]]].
  destruct (output_lists o A) as [ids [symbols [C [S T]]]].
  exists (props (mergePreferences (VObj (parsedData o)))),
    (map VNum ids), (map VStr symbols).
  repeat split; try assumption.
  - apply FieldResults.forallb_is_string_strings.
  - intros k. unfold mergePreferences. cbn [props]. apply delete_undefined_defined.
  - apply NoDup_mergePreferences.
Qed.

(** X11. The known fields other than the chains and the tokens are
    handed over as they are: [redirectUrl], [currency], [amount] and
    [webhooks] of the canonical object are those of the input.  Of [og]
    only [baseUrl] is kept: its other keys are stripped. *)
Theorem known_fields_pass_through (input : value) (o : object) (out : value) :
  parseInput input = VObj o ->
  PreferencesSchema input = Ok out ->
  field out "redirectUrl" = get o "redirectUrl"
  /\ field out "currency" = get o "currency"
  /\ field out "amount" = get o "amount"
  /\ field out "webhooks" = get o "webhooks"
  /\ (get o "og" = VUndefined -> field out "og" = VUndefined)
  /\ (forall og, get o "og" = VObj og ->
        exists kept, field out "og" = VObj kept
                     /\ get kept "baseUrl" = get og "baseUrl"
                     /\ forall k, k <> "baseUrl" -> own k kept = None).
Proof.
  intros Hin H. apply PreferencesSchema_Ok in H as [o' [Hin' [A ->]]].
  rewrite Hin in Hin'. injection Hin' as <-.
  pose proof (NoDup_parsedData o) as ND.
  assert (forall k, In k ["redirectUrl"; "currency"; "amount"; "webhooks"; "og"] ->
            field (mergePreferences (VObj (parsedData o))) k = get (parsedData o) k)
    as Copy.
  { intros k Hk. exact (IdempotenceResults.get_copied_field _ k ND Hk). }
  assert (forall ks, In ks PreferencesShape -> preserving (snd ks) ->
            get (parsedData o) (fst ks) = get o (fst ks)) as Same.
  { intros ks Hks P. exact (P _ _ (first_pass o ks A Hks)). }
  assert (forall s, preserving s -> preserving (optional s)) as PO.
  { intros s P v w. destruct v; simpl; try apply P. now intros [= <-]. }
  repeat split.
  - rewrite Copy by (simpl; tauto).
    apply (Same ("redirectUrl", optional (url string_))); [simpl; tauto |].
    apply PO, check_preserving, string_preserving.
  - rewrite Copy by (simpl; tauto).
    apply (Same ("currency", optional string_)); [simpl; tauto |].
    apply PO, string_preserving.
  - rewrite Copy by (simpl; tauto).
    apply (Same ("amount", optional (nonnegative number_))); [simpl; tauto |].
    apply PO, check_preserving, number_preserving.
  - rewrite Copy by (simpl; tauto).
    apply (Same ("webhooks",
                 optional (max 15 (array (refine isSecureUrl (url string_))))));
      [simpl; tauto |].
    apply PO, check_preserving, array_preserving, check_preserving,
      check_preserving, string_preserving.
  - intros U. rewrite Copy by (simpl; tauto).
    pose proof (first_pass o
      ("og", optional (object_ [("baseUrl", optional (url string_))] None)) A
      ltac:(simpl; tauto)) as F.
    cbn [fst snd] in F. rewrite U in F. now injection F as <-.
  - intros og G. rewrite Copy by (simpl; tauto).
    pose proof (first_pass o
      ("og", optional (object_ [("baseUrl", optional (url string_))] None)) A
      ltac:(simpl; tauto)) as F.
    cbn [fst snd] in F. rewrite G in F. cbn [optional] in F.
    unfold object_ in F. rewrite mergeObject_spec in F.
    cbn [map fst snd app forallb fold_left] in F.
    destruct (optional (url string_) (get og "baseUrl")) as [v |] eqn:E;
      [| discriminate].
    cbn [success andb] in F. injection F as F. rewrite <- F. clear F.
    assert (v = get og "baseUrl") as ->.
    { apply (PO _ (check_preserving _ _ string_preserving)) in E. exact E. }
    destruct (negb (is_undefined (get og "baseUrl")) || has og "baseUrl") eqn:C.
    + eexists. split; [reflexivity |]. split.
      * reflexivity.
      * intros k Hk. rewrite own_assign by discriminate.
        now rewrite (proj2 (String.eqb_neq "baseUrl" k)) by congruence.
    + exists []. split; [reflexivity |]. split; [| reflexivity].
      apply orb_false_elim in C as [C _]. now destruct (get og "baseUrl").
Qed.

End Output.

(** X11 at [{amount: 3, og: {baseUrl: "https://example.com/og", theme: "dark"}}]. *)
Lemma known_fields_pass_through_witness :
  exists out kept,
    PreferencesSchema (host := Example.host)
      (VObj [("amount", VNum (int 3));
             ("og", VObj [("baseUrl", VStr "https://example.com/og");
                          ("theme", VStr "dark")])])
    = Ok out
    /\ field out "amount" = VNum (int 3)
    /\ field out "og" = VObj kept
    /\ get kept "baseUrl" = VStr "https://example.com/og"
    /\ own "theme" kept = None.
Proof.
  assert (PreferencesSchema (host := Example.host)
            (VObj [("amount", VNum (int 3));
                   ("og", VObj [("baseUrl", VStr "https://example.com/og");
                                ("theme", VStr "dark")])])
          = Ok (VObj [("chainIds", VArr []); ("tokenSymbols", VArr []);
                      ("amount", VNum (int 3));
                      ("og", VObj [("baseUrl", VStr "https://example.com/og")])]))
    as H by (vm_compute; reflexivity).
  destruct (known_fields_pass_through (host := Example.host)
              (VObj [("amount", VNum (int 3));
                     ("og", VObj [("baseUrl", VStr "https://example.com/og");
                                  ("theme", VStr "dark")])])
              [("amount", VNum (int 3));
               ("og", VObj [("baseUrl", VStr "https://example.com/og");
                            ("theme", VStr "dark")])]
              _ eq_refl H)
    as [_ [_ [Am [_ [_ Og]]]]].
  destruct (Og [("baseUrl", VStr "https://example.com/og"); ("theme", VStr "dark")]
              eq_refl) as [kept [E [B K]]].
  eexists _, kept. split; [exact H |].
  split; [exact Am | split; [exact E | split; [exact B |]]].
  apply K. discriminate.
Defined.

(** X10 at [{tokens: "DAI , USDC", chainIds: ["eth", 5, "base"], memo: undefined}]. *)
Lemma canonical_object_invariant_witness :
  exists result ids symbols,
    PreferencesSchema (host := Example.host)
      (VObj [("tokens", VStr "DAI , USDC");
             ("chainIds", VArr [VStr "eth"; VNum (int 5); VStr "base"]);
             ("memo", VUndefined)])
    = Ok (VObj result)
    /\ own "chainIds" result = Some (VArr ids)
    /\ forallb supported ids = true
    /\ own "tokenSymbols" result = Some (VArr symbols)
    /\ forallb is_string symbols = true
    /\ (forall k, own k result <> Some VUndefined)
    /\ NoDup (keys result).
Proof.
  assert (PreferencesSchema (host := Example.host)
            (VObj [("tokens", VStr "DAI , USDC");
                   ("chainIds", VArr [VStr "eth"; VNum (int 5); VStr "base"]);
                   ("memo", VUndefined)])
          = Ok (VObj [("chainIds", VArr [VNum (int 1); VNum (int 8453)]);
                      ("tokenSymbols", VArr [VStr "DAI"; VStr "USDC"])]))
    as H by (vm_compute; reflexivity).
  destruct (canonical_object_invariant _ _ H)
    as [result [ids [symbols [E [C [Cs [T [Ts [U ND]]]]]]]]].
  injection E as <-.
  eexists; exists ids, symbols. split; [exact H |]. repeat split; assumption.
Defined.

End OutputResults.

(* ================================================================== *)
(** * Encodings of the same preferences *)
(* ================================================================== *)

Module EncodingResults.
Import Zod Notions ObjectFacts ZodFacts FieldFacts PipelineFacts.
Import Constants Utils Validation.

Section Encodings.
Context {host : Host}.

Lemma success_PreferencesSchema_object (o : object) :
  success (PreferencesSchema (VObj o)) = fields_accepted o.
Proof.
  rewrite PreferencesSchema_spec. cbn [parseInput].
  now destruct (fields_accepted o).
Qed.

Lemma others_recognized (k : string) :
  In k ["redirectUrl"; "currency"; "amount"; "webhooks"; "og"] ->
  exists s, In (k, s) PreferencesShape.
Proof.
  simpl. intros H.
  repeat (destruct H as [<- | H]; [eexists; simpl; eauto 10 |]). contradiction.
Qed.

(** X12. A JSON text is validated as the value it encodes, and it is
    decoded once: a text that encodes an object has the result of that
    object, and a text that encodes anything else, a string that holds
    the JSON text of preferences included, is rejected. *)
Theorem json_text_is_decoded_once (s : string) (v : value) :
  trim s <> "" ->
  JSON_parse s = Some v ->
  PreferencesSchema (VStr s)
  = match v with VObj o => PreferencesSchema (VObj o) | _ => ZodError end.
Proof.
  intros B P. rewrite PreferencesSchema_spec. cbn [parseInput].
  rewrite (proj2 (String.eqb_neq (trim s) "") B), P. cbn [negb].
  destruct v as [| | | | | | o |]; try reflexivity.
  now rewrite PreferencesSchema_spec.
Qed.

(** X13. The legacy names are a second spelling of the same field: an
    input that gives its chains and tokens as [chainIds] and
    [tokenSymbols], and one that gives the same values as [chains] and
    [tokens], with the same other properties, are accepted together, and
    their canonical objects have the same properties. *)
Theorem legacy_names_are_equivalent (o o' : object) :
  get o "chains" = VUndefined -> get o "tokens" = VUndefined ->
  get o' "chainIds" = VUndefined -> get o' "tokenSymbols" = VUndefined ->
  get o' "chains" = get o "chainIds" ->
  get o' "tokens" = get o "tokenSymbols" ->
  (forall k, In k ["redirectUrl"; "currency"; "amount"; "webhooks"; "og"] ->
             get o' k = get o k) ->
  (forall k, recognized k = false -> own k o' = own k o) ->
  success (PreferencesSchema (VObj o')) = success (PreferencesSchema (VObj o))
  /\ forall out out',
       PreferencesSchema (VObj o) = Ok out ->
       PreferencesSchema (VObj o') = Ok out' ->
       forall k, own k (props out') = own k (props out).
Proof.
  intros Hc Ht Hi' Hs' Hc' Ht' Hothers Hextra.
  split.
  { rewrite !success_PreferencesSchema_object. unfold fields_accepted.
    cbn [forallb PreferencesShape fst snd].
    rewrite Hc, Ht, Hi', Hs', Hc', Ht'.
    rewrite !Hothers by (simpl; tauto).
    cbn [optional success andb].
    repeat match goal with
           | |- context [success ?x] =>
               let b := fresh "b" in generalize (success x); intros b
           end.
    btauto. }
  intros out out' H H'.
  apply OutputResults.PreferencesSchema_Ok in H as [o1 [E1 [A ->]]].
  apply OutputResults.PreferencesSchema_Ok in H' as [o2 [E2 [A' ->]]].
  cbn [parseInput] in E1, E2. injection E1 as <-. injection E2 as <-.
  pose proof (NoDup_parsedData o) as ND. pose proof (NoDup_parsedData o') as ND'.
  pose proof (OutputResults.first_pass o) as F.
  pose proof (OutputResults.first_pass o') as F'.
  assert (forall k s, In (k, s) PreferencesShape -> get o' k = get o k ->
            get (parsedData o') k = get (parsedData o) k) as Same.
  { intros k s Hin E.
    pose proof (F _ A Hin) as G. pose proof (F' _ A' Hin) as G'.
    cbn [fst snd] in G, G'. rewrite E in G'. congruence. }
  pose proof (F ("chains", optional ChainConfigSchema) A ltac:(simpl; tauto)) as Gc.
  pose proof (F ("tokens", optional TokenConfigSchema) A ltac:(simpl; tauto)) as Gt.
  pose proof (F ("chainIds", optional ChainConfigSchema) A ltac:(simpl; tauto)) as Gi.
  pose proof (F ("tokenSymbols", optional TokenConfigSchema) A ltac:(simpl; tauto))
    as Gs.
  pose proof (F' ("chains", optional ChainConfigSchema) A' ltac:(simpl; tauto)) as Gc'.
  pose proof (F' ("tokens", optional TokenConfigSchema) A' ltac:(simpl; tauto)) as Gt'.
  pose proof (F' ("chainIds", optional ChainConfigSchema) A' ltac:(simpl; tauto))
    as Gi'.
  pose proof (F' ("tokenSymbols", optional TokenConfigSchema) A' ltac:(simpl; tauto))
    as Gs'.
  cbn [fst snd] in Gc, Gt, Gi, Gs, Gc', Gt', Gi', Gs'.
  rewrite Hc in Gc. rewrite Ht in Gt. rewrite Hi' in Gi'. rewrite Hs' in Gs'.
  rewrite Hc' in Gc'. rewrite Ht' in Gt'.
  cbn [optional] in Gc, Gt, Gi', Gs'.
  injection Gc as Gc. injection Gt as Gt. injection Gi' as Gi'. injection Gs' as Gs'.
  assert (get (parsedData o') "chains" = get (parsedData o) "chainIds") as Ec
    by congruence.
  assert (get (parsedData o') "tokens" = get (parsedData o) "tokenSymbols") as Et
    by congruence.
  intros k.
  destruct (recognized k) eqn:R.
  2:{ now rewrite !MergeResults.own_unrecognized, Hextra by exact R. }
  rewrite !own_mergePreferences by assumption.
  rewrite <- Gc, <- Gt, <- Gi', <- Gs', Ec, Et.
  destruct (k =? "chainIds") eqn:K1;
    [now destruct (get (parsedData o) "chainIds") |].
  destruct (k =? "tokenSymbols") eqn:K2;
    [now destruct (get (parsedData o) "tokenSymbols") |].
  destruct (existsb (String.eqb k) ["redirectUrl"; "currency"; "amount"; "webhooks"; "og"])
    eqn:O.
  { apply existsb_exists in O as [x [Hin Ex]]. apply String.eqb_eq in Ex. subst x.
    destruct (others_recognized k Hin) as [s Hs].
    now rewrite (Same k s Hs (Hothers k Hin)). }
  destruct (existsb (String.eqb k) ["chains"; "tokens"]) eqn:CT; [reflexivity |].
  exfalso. unfold recognized, knownKeys in R. cbn [existsb] in R, O, CT.
  repeat (apply orb_false_elim in O as [? O]).
  repeat (apply orb_false_elim in CT as [? CT]).
  repeat match goal with E : (k =? _) = false |- _ => rewrite E in R; clear E end.
  discriminate R.
Qed.

(** The second pass over a canonical object: every field is accepted
    again, and the transform reads what the first pass returned. *)
Lemma second_pass (o : object) :
  fields_accepted o = true ->
  let data := parsedData o in
  let result := props (mergePreferences (VObj data)) in
  fields_accepted result = true
  /\ get (parsedData result) "chains" = VUndefined
  /\ get (parsedData result) "tokens" = VUndefined
  /\ get (parsedData result) "chainIds"
     = nullish (get data "chains") (nullish (get data "chainIds") (VArr []))
  /\ get (parsedData result) "tokenSymbols"
     = nullish (get data "tokens") (nullish (get data "tokenSymbols") (VArr []))
  /\ forall k, In k ["redirectUrl"; "currency"; "amount"; "webhooks"; "og"] ->
               get (parsedData result) k = get data k.
Proof.
  intros A data result.
  pose proof (NoDup_parsedData o) as ND. fold data in ND.
  pose proof (OutputResults.first_pass o) as First. fold data in First.
  pose proof (First ("chains", optional ChainConfigSchema) A ltac:(simpl; tauto)) as Fc.
  pose proof (First ("chainIds", optional ChainConfigSchema) A ltac:(simpl; tauto))
    as Fi.
  pose proof (First ("tokens", optional TokenConfigSchema) A ltac:(simpl; tauto)) as Ft.
  pose proof (First ("tokenSymbols", optional TokenConfigSchema) A ltac:(simpl; tauto))
    as Fs.
  cbn [fst snd] in Fc, Fi, Ft, Fs.
  destruct (IdempotenceResults.merged_chains _ _ _ _ Fc Fi) as [Cok [ids Cids]].
  destruct (IdempotenceResults.merged_tokens _ _ _ _ Ft Fs) as [Tok [items Titems]].
  assert (get result "chainIds"
          = nullish (get data "chains") (nullish (get data "chainIds") (VArr []))) as GC.
  { rewrite get_own by reflexivity. unfold result. now rewrite (own_chainIds data ND). }
  assert (get result "tokenSymbols"
          = nullish (get data "tokens") (nullish (get data "tokenSymbols") (VArr [])))
    as GT.
  { rewrite get_own by reflexivity. unfold result.
    now rewrite (own_tokenSymbols data ND). }
  destruct (own_chains_tokens data ND) as [NoC NoT]. fold result in NoC, NoT.
  assert (get result "chains" = VUndefined) as GNC.
  { rewrite get_own by reflexivity. now rewrite NoC. }
  assert (get result "tokens" = VUndefined) as GNT.
  { rewrite get_own by reflexivity. now rewrite NoT. }
  assert (forall ks, In ks PreferencesShape ->
            snd ks (get result (fst ks))
            = Ok (if fst ks =? "chainIds" then get result "chainIds"
                  else if fst ks =? "tokenSymbols" then get result "tokenSymbols"
                  else if existsb (String.eqb (fst ks)) ["chains"; "tokens"]
                  then VUndefined else get data (fst ks))) as Second.
  { intros ks Hin. pose proof (IdempotenceResults.shape_idempotent ks Hin) as I.
    pose proof (First ks A Hin) as F. simpl in Hin.
    destruct Hin as [<- | [<- | [<- | [<- | Hin]]]]; cbn [fst snd] in *.
    - rewrite GC. rewrite Cids in Cok |- *. exact Cok.
    - rewrite GT. rewrite Titems in Tok |- *. exact Tok.
    - rewrite GNC. reflexivity.
    - rewrite GNT. reflexivity.
    - assert (In (fst ks) ["redirectUrl"; "currency"; "amount"; "webhooks"; "og"])
        as Hk.
      { repeat (destruct Hin as [<- | Hin]; [simpl; tauto |]). contradiction. }
      assert (get result (fst ks) = get data (fst ks)) as ->.
      { now apply IdempotenceResults.get_copied_field. }
      rewrite (I _ _ F). f_equal.
      simpl in Hk. repeat (destruct Hk as [<- | Hk]; [reflexivity |]). contradiction. }
  split.
  { apply forallb_forall. intros ks Hin. apply success_Ok. eexists.
    exact (Second ks Hin). }
  split.
  { apply (get_parsedData_known result ("chains", optional ChainConfigSchema));
      [simpl; tauto |].
    now rewrite (Second ("chains", optional ChainConfigSchema)) by (simpl; tauto). }
  split.
  { apply (get_parsedData_known result ("tokens", optional TokenConfigSchema));
      [simpl; tauto |].
    now rewrite (Second ("tokens", optional TokenConfigSchema)) by (simpl; tauto). }
  split.
  { rewrite <- GC.
    apply (get_parsedData_known result ("chainIds", optional ChainConfigSchema));
      [simpl; tauto |].
    now rewrite (Second ("chainIds", optional ChainConfigSchema)) by (simpl; tauto). }
  split.
  { rewrite <- GT.
    apply (get_parsedData_known result ("tokenSymbols", optional TokenConfigSchema));
      [simpl; tauto |].
    now rewrite (Second ("tokenSymbols", optional TokenConfigSchema))
      by (simpl; tauto). }
  intros k Hk. destruct (others_recognized k Hk) as [s Hs].
  apply (get_parsedData_known result (k, s) _ Hs).
  rewrite (Second (k, s) Hs). cbn [fst]. f_equal.
  simpl in Hk. repeat (destruct Hk as [<- | Hk]; [reflexivity |]). contradiction.
Qed.

(** X14. A canonical object is a fixed point of validation: it is
    accepted, and its canonical object has the same properties, each with
    the same value. *)
Theorem canonical_object_is_fixed_point (input out : value) :
  PreferencesSchema input = Ok out ->
  exists out',
    PreferencesSchema out = Ok out'
    /\ forall k, own k (props out') = own k (props out).
Proof.
  intros H. apply OutputResults.PreferencesSchema_Ok in H as [o [_ [A ->]]].
  pose proof (second_pass o A) as S. cbv zeta in S.
  destruct S as [A' [Gc [Gt [Gi [Gs Go]]]]].
  exists (mergePreferences
            (VObj (parsedData (props (mergePreferences (VObj (parsedData o))))))).
  split.
  { change (mergePreferences (VObj (parsedData o)))
      with (VObj (props (mergePreferences (VObj (parsedData o))))) at 1.
    rewrite PreferencesSchema_spec. cbn [parseInput]. now rewrite A'. }
  intros k.
  destruct (recognized k) eqn:R.
  - rewrite !own_mergePreferences by apply NoDup_parsedData.
    rewrite Gc, Gt, Gi, Gs.
    destruct (k =? "chainIds") eqn:K1;
      [now destruct (get (parsedData o) "chains"), (get (parsedData o) "chainIds") |].
    destruct (k =? "tokenSymbols") eqn:K2;
      [now destruct (get (parsedData o) "tokens"),
         (get (parsedData o) "tokenSymbols") |].
    destruct (existsb (String.eqb k)
                ["redirectUrl"; "currency"; "amount"; "webhooks"; "og"]) eqn:O.
    { apply existsb_exists in O as [x [Hin Ex]]. apply String.eqb_eq in Ex. subst x.
      now rewrite (Go k Hin). }
    destruct (existsb (String.eqb k) ["chains"; "tokens"]) eqn:CT; [reflexivity |].
    exfalso. unfold recognized, knownKeys in R. cbn [existsb] in R, O, CT.
    repeat (apply orb_false_elim in O as [? O]).
    repeat (apply orb_false_elim in CT as [? CT]).
    repeat match goal with E : (k =? _) = false |- _ => rewrite E in R; clear E end.
    discriminate R.
  - rewrite (MergeResults.own_unrecognized _ k R).
    pose proof (MergeResults.own_unrecognized o k R) as X.
    destruct (k =? "__proto__"); [now rewrite X |].
    rewrite X. now destruct (own k o) as [[] |].
Qed.

End Encodings.

(** X12 at the JSON text [{"tokens":["USDC"],"chains":["eth","arb1"]}]. *)
Lemma json_text_is_decoded_once_witness :
  PreferencesSchema (host := Example.host)
    (VStr (quoted "{'tokens':['USDC'],'chains':['eth','arb1']}"))
  = PreferencesSchema (host := Example.host)
      (VObj [("tokens", VArr [VStr "USDC"]);
             ("chains", VArr [VStr "eth"; VStr "arb1"])]).
Proof.
  apply (json_text_is_decoded_once (host := Example.host)
           (quoted "{'tokens':['USDC'],'chains':['eth','arb1']}")
           (VObj [("tokens", VArr [VStr "USDC"]);
                  ("chains", VArr [VStr "eth"; VStr "arb1"])])).
  - vm_compute. discriminate.
  - vm_compute. reflexivity.
Defined.

(** X13 at [{chainIds: ["eth", 137], tokenSymbols: "DAI,USDC", amount: 3,
    memo: "x"}] and [{memo: "x", chains: ["eth", 137], tokens: "DAI,USDC",
    amount: 3}]. *)
Lemma legacy_names_are_equivalent_witness :
  exists out out',
    PreferencesSchema (host := Example.host)
      (VObj [("chainIds", VArr [VStr "eth"; VNum (int 137)]);
             ("tokenSymbols", VStr "DAI,USDC");
             ("amount", VNum (int 3)); ("memo", VStr "x")])
    = Ok out
    /\ PreferencesSchema (host := Example.host)
         (VObj [("memo", VStr "x");
                ("chains", VArr [VStr "eth"; VNum (int 137)]);
                ("tokens", VStr "DAI,USDC"); ("amount", VNum (int 3))])
       = Ok out'
    /\ forall k, own k (props out') = own k (props out).
Proof.
  destruct (legacy_names_are_equivalent (host := Example.host)
              [("chainIds", VArr [VStr "eth"; VNum (int 137)]);
               ("tokenSymbols", VStr "DAI,USDC");
               ("amount", VNum (int 3)); ("memo", VStr "x")]
              [("memo", VStr "x");
               ("chains", VArr [VStr "eth"; VNum (int 137)]);
               ("tokens", VStr "DAI,USDC"); ("amount", VNum (int 3))])
    as [_ Same]; try reflexivity.
  - intros k Hk. simpl in Hk.
    repeat (destruct Hk as [<- | Hk]; [reflexivity |]). contradiction.
  - intros k R. unfold own.
    repeat match goal with
           | |- context [String.eqb ?a k] =>
               destruct (String.eqb_spec a k) as [<- | ?];
               [first [discriminate R | reflexivity] |]
           end.
    reflexivity.
  - eexists _, _. split; [vm_compute; reflexivity |].
    split; [vm_compute; reflexivity |].
    apply Same; vm_compute; reflexivity.
Defined.

(** X14 at [{chains: "eth, 999999,op", tokens: "DAI, USDC", amount: 0,
    memo: "x"}]. *)
Lemma canonical_object_is_fixed_point_witness :
  exists out out',
    PreferencesSchema (host := Example.host)
      (VObj [("chains", VStr "eth, 999999,op"); ("tokens", VStr "DAI, USDC");
             ("amount", VNum (int 0)); ("memo", VStr "x")])
    = Ok out
    /\ PreferencesSchema (host := Example.host) out = Ok out'
    /\ forall k, own k (props out') = own k (props out).
Proof.
  assert (PreferencesSchema (host := Example.host)
            (VObj [("chains", VStr "eth, 999999,op"); ("tokens", VStr "DAI, USDC");
                   ("amount", VNum (int 0)); ("memo", VStr "x")])
          = Ok (VObj [("chainIds", VArr [VNum (int 1); VNum (int 10)]);
                      ("tokenSymbols", VArr [VStr "DAI"; VStr "USDC"]);
                      ("amount", VNum (int 0)); ("memo", VStr "x")]))
    as H by (vm_compute; reflexivity).
  destruct (canonical_object_is_fixed_point _ _ H) as [out' [H' Same]].
  eexists; exists out'. split; [exact H |]. split; [exact H' | exact Same].
Defined.

End EncodingResults.

(* ================================================================== *)
(** * The serializer on canonical objects *)
(* ================================================================== *)

Module SerializerOnCanonical.
Import Zod Notions ObjectFacts ZodFacts FieldFacts PipelineFacts.
Import Constants Utils Validation.

Section Serializer.
Context {host : Host}.

(** The copy loop leaves alone the keys it does not visit. *)
Lemma own_copied_absent (preferences : object) (k : string) ks into :
  ~ In k ks -> own k (copied preferences ks into) = own k into.
Proof.
  unfold copied. revert into.
  induction ks as [| key ks IH]; intros into N; simpl; [reflexivity |].
  rewrite IH by (simpl in N; tauto).
  destruct (negb (key =? "chainIds") && negb (key =? "tokenSymbols"));
    [| reflexivity].
  rewrite SerializerResults.own_assign_any.
  rewrite (proj2 (String.eqb_neq key k)); [reflexivity |].
  simpl in N. tauto.
Qed.

(** It never writes [chainIds] or [tokenSymbols]. *)
Lemma own_copied_excluded (preferences : object) (k : string) ks into :
  k = "chainIds" \/ k = "tokenSymbols" ->
  own k (copied preferences ks into) = own k into.
Proof.
  intros Hk. unfold copied. revert into.
  induction ks as [| key ks IH]; intros into; simpl; [reflexivity |].
  rewrite IH.
  destruct (String.eqb_spec key "chainIds") as [-> | N1]; [reflexivity |].
  destruct (String.eqb_spec key "tokenSymbols") as [-> | N2]; [reflexivity |].
  cbn [negb andb]. rewrite SerializerResults.own_assign_any.
  rewrite (proj2 (String.eqb_neq key k)); [reflexivity |].
  destruct Hk; congruence.
Qed.

Lemma shortNames_supported (ids : list number) :
  forallb supported (map VNum ids) = true ->
  length (shortNames ids) = length ids.
Proof.
  induction ids as [| n ids IH]; simpl; [reflexivity |].
  intros H. apply andb_prop in H as [Hn Hids].
  destruct (RegistryRoundTrip.supported_short_name _ Hn) as [name [-> _]].
  simpl. now rewrite IH.
Qed.

(** The serializer returns when it is given lists of numbers and of
    strings. *)
Lemma formatPreferences_lists (preferences : object)
      (ids : list number) (symbols : list string) :
  get preferences "chainIds" = VArr (map VNum ids) ->
  get preferences "tokenSymbols" = VArr (map VStr symbols) ->
  formatPreferences preferences
  = Return (delete_undefined
              (copied preferences (keys preferences)
                 [("tokens", VStr (String.concat "," symbols));
                  ("chains", match shortNames ids with
                             | [] => VUndefined
                             | names => VStr (String.concat "," names)
                             end)])).
Proof.
  intros Gc Gt. unfold formatPreferences. rewrite Gc, Gt. cbn [bind].
  rewrite SerializerResults.join_strings, SerializerResults.shortNames_filter.
  cbn [bind].
  destruct (shortNames ids) as [| name names]; [reflexivity |].
  cbn [map]. change (VStr name :: map VStr names) with (map VStr (name :: names)).
  rewrite SerializerResults.join_strings. reflexivity.
Qed.

(** What the serializer makes of an object in canonical form. *)
Lemma formatPreferences_canonical (result : object)
      (ids : list number) (symbols : list string) :
  own "chainIds" result = Some (VArr (map VNum ids)) ->
  own "tokenSymbols" result = Some (VArr (map VStr symbols)) ->
  own "tokens" result = None -> own "chains" result = None ->
  own "__proto__" result = None ->
  (forall k, own k result <> Some VUndefined) ->
  exists formatted,
    formatPreferences result = Return formatted
    /\ own "tokens" formatted = Some (VStr (String.concat "," symbols))
    /\ own "chains" formatted
       = match shortNames ids with
         | [] => None
         | names => Some (VStr (String.concat "," names))
         end
    /\ own "chainIds" formatted = None
    /\ own "tokenSymbols" formatted = None
    /\ forall k, ~ In k ["tokens"; "chains"; "chainIds"; "tokenSymbols"] ->
                 own k formatted = own k result.
Proof.
  intros Hc Ht HnT HnC HnP Hdef.
  assert (get result "chainIds" = VArr (map VNum ids)) as Gc.
  { rewrite get_own by reflexivity. now rewrite Hc. }
  assert (get result "tokenSymbols" = VArr (map VStr symbols)) as Gt.
  { rewrite get_own by reflexivity. now rewrite Ht. }
  pose proof (formatPreferences_lists result ids symbols Gc Gt) as F.
  set (tokens := VStr (String.concat "," symbols)) in *.
  set (chains := match shortNames ids with
                 | [] => VUndefined
                 | names => VStr (String.concat "," names)
                 end) in *.
  exists (delete_undefined
            (copied result (keys result) [("tokens", tokens); ("chains", chains)])).
  split; [exact F |].
  assert (forall k, k = "tokens" \/ k = "chains" ->
            own k (copied result (keys result) [("tokens", tokens); ("chains", chains)])
            = own k [("tokens", tokens); ("chains", chains)]) as Hown.
  { intros k Hk. apply own_copied_absent. intros Hin. apply hasOwn_In in Hin.
    unfold hasOwn in Hin. destruct Hk; subst k; [rewrite HnT in Hin | rewrite HnC in Hin];
      discriminate. }
  split; [| split; [| split; [| split]]].
  - rewrite own_delete_undefined, Hown by tauto. reflexivity.
  - rewrite own_delete_undefined, Hown by tauto. cbn. subst chains.
    now destruct (shortNames ids).
  - rewrite own_delete_undefined, own_copied_excluded by tauto. reflexivity.
  - rewrite own_delete_undefined, own_copied_excluded by tauto. reflexivity.
  - intros k Hk. simpl in Hk. rewrite own_delete_undefined.
    destruct (String.eqb_spec k "__proto__") as [-> | NP].
    + rewrite own_copied_absent, HnP; [reflexivity |].
      intros Hin. apply hasOwn_In in Hin. unfold hasOwn in Hin.
      rewrite HnP in Hin. discriminate.
    + rewrite SerializerResults.own_copied, SerializerResults.existsb_keys
        by intuition congruence.
      unfold hasOwn, get.
      destruct (own k result) as [v |] eqn:E.
      * destruct v; try reflexivity. now destruct (Hdef k).
      * cbn [own]. rewrite (proj2 (String.eqb_neq "tokens" k)) by intuition congruence.
        rewrite (proj2 (String.eqb_neq "chains" k)) by intuition congruence.
        reflexivity.
Qed.

(** The canonical object of an accepted input has the form that
    [formatPreferences_canonical] asks for. *)
Lemma canonical_form (o : object) :
  fields_accepted o = true ->
  let result := props (mergePreferences (VObj (parsedData o))) in
  exists ids symbols,
    own "chainIds" result = Some (VArr (map VNum ids))
    /\ forallb supported (map VNum ids) = true
    /\ own "tokenSymbols" result = Some (VArr (map VStr symbols))
    /\ own "tokens" result = None /\ own "chains" result = None
    /\ own "__proto__" result = None
    /\ (forall k, own k result <> Some VUndefined).
Proof.
  intros A result.
  destruct (OutputResults.output_lists o A) as [ids [symbols [C [S T]]]].
  destruct (own_chains_tokens _ (NoDup_parsedData o)) as [NC NT].
  exists ids, symbols. repeat split; try assumption.
  - unfold result. now rewrite MergeResults.own_unrecognized.
  - intros k. unfold result, mergePreferences. cbn [props].
    apply delete_undefined_defined.
Qed.



End Serializer.



End SerializerOnCanonical.

(* ================================================================== *)
(** * From the serialized preferences back to the canonical object *)
(* ================================================================== *)

Module SerializeValidate.
Import Zod Notions ObjectFacts ZodFacts FieldFacts PipelineFacts.
Import Constants Utils Validation.

Section RoundTrip.
Context {host : Host}.

(** [Number] of a chain short name is NaN. *)
Hypothesis names_are_no_numbers :
  forall name, In name ["eth"; "oeth"; "pol"; "gno"; "arb1"; "base"] ->
               isNaN (Number_of_string name) = true.

Lemma short_name_of_supported (n : number) :
  supported (VNum n) = true ->
  exists name id,
    chainIdToShortName (VNum n) = VStr name
    /\ In name ["eth"; "oeth"; "pol"; "gno"; "arb1"; "base"]
    /\ is_item name
    /\ resolveChainIdOrShortName name = VNum id
    /\ num_eqb n id = true
    /\ supported (VNum id) = true.
Proof.
  intros S. destruct (RegistryRoundTrip.supported_short_name _ S) as [name [E _]].
  exists name. unfold chainIdToShortName in E |- *.
  destruct (find _ CHAIN_SHORT_NAMES) as [[name' w] |] eqn:F; [| discriminate].
  injection E as ->. pose proof F as F0. apply find_some in F as [Hin P].
  simpl in Hin.
  destruct Hin as [Hin | [Hin | [Hin | [Hin | [Hin | [Hin | [Hin | []]]]]]]];
    injection Hin as <- <-.
  3:{ exfalso. unfold CHAIN_SHORT_NAMES in F0. cbn [find snd] in F0, P.
      destruct (strict_eq_num (VNum n) (id mainnet)); [discriminate F0 |].
      change (id optimism) with (int 10) in F0. rewrite P in F0. discriminate F0. }
  all: eexists; split; [reflexivity |];
    split; [simpl; tauto |];
    split; [split; reflexivity |];
    split; [reflexivity |];
    split; [exact P | reflexivity].
Qed.

(** The comma string of the short names of supported ids validates to
    these ids. *)
Lemma chain_names_validate (ids : list number) :
  forallb supported (map VNum ids) = true -> ids <> [] ->
  exists ids',
    ChainConfigSchema (VStr (String.concat "," (shortNames ids)))
    = Ok (VArr (map VNum ids'))
    /\ same_ids ids ids'.
Proof.
  intros S N.
  assert (exists ids',
             same_ids ids ids'
             /\ Forall is_item (shortNames ids)
             /\ length (shortNames ids) = length ids
             /\ map (fun item => let num := Number_of_string item in
                                 if isNaN num then VStr item else VNum num)
                    (shortNames ids)
                = map VStr (shortNames ids)
             /\ filter supported (map resolveChain (map VStr (shortNames ids)))
                = map VNum ids') as [ids' [Same [Items [L [M R]]]]].
  { clear N. induction ids as [| n ids IH]; [exists []; repeat split; constructor |].
    cbn [map forallb] in S. apply andb_prop in S as [Sn Sids].
    destruct (IH Sids) as [ids' [Same [Items [L [M R]]]]].
    destruct (short_name_of_supported n Sn) as [name [id [E [Hin [I [Res [Q Sid]]]]]]].
    exists (id :: ids'). cbn [shortNames flat_map]. rewrite E.
    fold (shortNames ids). cbn [app map filter resolveChain length].
    rewrite Res, Sid. cbv zeta. rewrite (names_are_no_numbers name Hin).
    cbv zeta in M. rewrite M, R, L.
    repeat split; try reflexivity; try assumption.
    - now constructor.
    - now constructor. }
  exists ids'. split; [| exact Same].
  apply ChainConfigSchema_Ok.
  exists (map VStr (shortNames ids)). split; [| split].
  - cbn [chainItems]. f_equal.
    assert (commaStringToArray (String.concat "," (shortNames ids)) = shortNames ids)
      as ->; [| exact M].
    apply StringUtilsResults.commaStringToArray_concat; [| exact Items].
    destruct ids; [congruence |]. destruct (shortNames (n :: ids)); discriminate.
  - clear. induction (shortNames ids); simpl; auto.
  - now rewrite R.
Qed.

(** X17. What is serialized validates back.  For every accepted input
    with canonical object [out], the object that the serializer hands to
    [JSON.stringify] is accepted, and its canonical object has the chain
    ids of [out] (up to [===]) and every other property of [out] but
    [tokenSymbols]: this one has the items of the joined string, which
    are the tokens of [out] when none of them has a comma or white space
    at an end and there is one at least, and [[""]] for the empty list. *)
Theorem serialized_preferences_validate_back (input out : value) :
  PreferencesSchema input = Ok out ->
  exists formatted out' ids ids' symbols,
    formatPreferences (props out) = Return formatted
    /\ PreferencesSchema (VObj formatted) = Ok out'
    /\ own "chainIds" (props out) = Some (VArr (map VNum ids))
    /\ own "chainIds" (props out') = Some (VArr (map VNum ids'))
    /\ same_ids ids ids'
    /\ own "tokenSymbols" (props out) = Some (VArr (map VStr symbols))
    /\ own "tokenSymbols" (props out')
       = Some (VArr (map VStr (commaStringToArray (String.concat "," symbols))))
    /\ (symbols <> [] -> Forall is_item symbols ->
        own "tokenSymbols" (props out') = own "tokenSymbols" (props out))
    /\ (symbols = [] -> own "tokenSymbols" (props out') = Some (VArr [VStr ""]))
    /\ forall k, k <> "chainIds" -> k <> "tokenSymbols" ->
                 own k (props out') = own k (props out).
Proof.
  intros H. apply OutputResults.PreferencesSchema_Ok in H as [o [_ [A ->]]].
  pose proof (SerializerOnCanonical.canonical_form o A) as C. cbv zeta in C.
  destruct C as [ids [symbols [C [S [T [NT [NC [NP D]]]]]]]].
  destruct (SerializerOnCanonical.formatPreferences_canonical
              _ ids symbols C T NT NC NP D)
    as [formatted [F [Ft [Fc [Fi [Fs Fo]]]]]].
  pose proof (SerializerOnCanonical.shortNames_supported ids S) as L.
  pose proof (EncodingResults.second_pass o A) as P2. cbv zeta in P2.
  destruct P2 as [A2 [_ [_ [_ [_ Go]]]]].
  set (data := parsedData o) in *.
  set (result := props (mergePreferences (VObj data))) in *.
  (* what validation reads in the serialized object *)
  assert (get formatted "chainIds" = VUndefined) as Gi.
  { rewrite get_own by reflexivity. now rewrite Fi. }
  assert (get formatted "tokenSymbols" = VUndefined) as Gs.
  { rewrite get_own by reflexivity. now rewrite Fs. }
  assert (get formatted "tokens" = VStr (String.concat "," symbols)) as Gt.
  { rewrite get_own by reflexivity. now rewrite Ft. }
  assert (exists ids',
             same_ids ids ids'
             /\ exists c, optional ChainConfigSchema (get formatted "chains") = Ok c
                          /\ nullish c (VArr []) = VArr (map VNum ids'))
    as [ids' [Same [c [Pc Ec]]]].
  { rewrite get_own by reflexivity. rewrite Fc.
    destruct ids as [| n ids].
    - exists []. split; [constructor |]. exists VUndefined. split; reflexivity.
    - destruct (chain_names_validate (n :: ids) S ltac:(discriminate))
        as [ids' [V Same]].
      exists ids'. split; [exact Same |]. exists (VArr (map VNum ids')).
      destruct (shortNames (n :: ids)) as [| name names]; [discriminate L |].
      split; [exact V | reflexivity]. }
  assert (forall k, In k ["redirectUrl"; "currency"; "amount"; "webhooks"; "og"] ->
            get formatted k = get result k) as Gsame.
  { intros k Hk.
    assert (hasOwn k Object_prototype = false) as Hp.
    { simpl in Hk. repeat (destruct Hk as [<- | Hk]; [reflexivity |]). contradiction. }
    rewrite !get_own by exact Hp. rewrite Fo; [reflexivity |].
    simpl in Hk |- *. intuition (subst; discriminate). }
  assert (forall ks, In ks PreferencesShape ->
            exists v, snd ks (get formatted (fst ks)) = Ok v) as Fields.
  { intros ks Hin. pose proof (fields_accepted_field result ks A2 Hin) as [v Hv].
    simpl in Hin.
    destruct Hin as [<- | [<- | [<- | [<- | Hin]]]]; cbn [fst snd] in *.
    - rewrite Gi. now exists VUndefined.
    - rewrite Gs. now exists VUndefined.
    - now exists c.
    - rewrite Gt. cbn [optional]. eexists. apply TokenConfigSchema_Ok.
      eexists. split; [reflexivity |].
      split; [apply FieldResults.forallb_is_string_strings | reflexivity].
    - exists v. rewrite Gsame; [exact Hv |].
      repeat (destruct Hin as [<- | Hin]; [simpl; tauto |]). contradiction. }
  assert (fields_accepted formatted = true) as A3.
  { apply forallb_forall. intros ks Hin. apply success_Ok. now apply Fields. }
  exists formatted, (mergePreferences (VObj (parsedData formatted))), ids, ids', symbols.
  change (props (mergePreferences (VObj data))) with result.
  pose proof (NoDup_parsedData formatted) as ND3.
  assert (get (parsedData formatted) "chains" = c) as D3c.
  { now apply (get_parsedData_known formatted ("chains", optional ChainConfigSchema));
      [simpl; tauto |]. }
  assert (get (parsedData formatted) "chainIds" = VUndefined) as D3i.
  { apply (get_parsedData_known formatted ("chainIds", optional ChainConfigSchema));
      [simpl; tauto |]. cbn [fst snd]. now rewrite Gi. }
  assert (get (parsedData formatted) "tokenSymbols" = VUndefined) as D3s.
  { apply (get_parsedData_known formatted ("tokenSymbols", optional TokenConfigSchema));
      [simpl; tauto |]. cbn [fst snd]. now rewrite Gs. }
  assert (get (parsedData formatted) "tokens"
          = VArr (map VStr (commaStringToArray (String.concat "," symbols)))) as D3t.
  { apply (get_parsedData_known formatted ("tokens", optional TokenConfigSchema));
      [simpl; tauto |]. cbn [fst snd]. rewrite Gt. cbn [optional].
    apply TokenConfigSchema_Ok. eexists. split; [reflexivity |].
    split; [apply FieldResults.forallb_is_string_strings | reflexivity]. }
  assert (own "tokenSymbols" (props (mergePreferences (VObj (parsedData formatted))))
          = Some (VArr (map VStr (commaStringToArray (String.concat "," symbols)))))
    as O3t.
  { now rewrite (own_tokenSymbols _ ND3), D3t. }
  split; [exact F |].
  split; [rewrite PreferencesSchema_spec; cbn [parseInput]; now rewrite A3 |].
  split; [exact C |].
  split.
  { rewrite (own_chainIds _ ND3), D3c, D3i. cbn [nullish].
    destruct c; try exact (f_equal Some Ec); discriminate Ec. }
  split; [exact Same |].
  split; [exact T |].
  split; [exact O3t |].
  split.
  { intros N I. rewrite O3t, T. do 3 f_equal.
    now apply StringUtilsResults.commaStringToArray_concat. }
  split.
  { intros ->. rewrite O3t. reflexivity. }
  intros k K1 K2.
  destruct (recognized k) eqn:R.
  - rewrite own_mergePreferences by exact ND3.
    unfold result. rewrite own_mergePreferences by apply NoDup_parsedData.
    fold data.
    rewrite (proj2 (String.eqb_neq k "chainIds") K1),
      (proj2 (String.eqb_neq k "tokenSymbols") K2).
    destruct (existsb (String.eqb k)
                ["redirectUrl"; "currency"; "amount"; "webhooks"; "og"]) eqn:O.
    + apply existsb_exists in O as [x [Hin Ex]]. apply String.eqb_eq in Ex. subst x.
      destruct (EncodingResults.others_recognized k Hin) as [s Hs].
      destruct (fields_accepted_field result (k, s) A2 Hs) as [v Hv].
      cbn [fst snd] in Hv.
      assert (get (parsedData formatted) k = v) as ->.
      { apply (get_parsedData_known formatted (k, s) v Hs). cbn [fst snd].
        now rewrite Gsame. }
      rewrite <- (Go k Hin).
      pose proof (get_parsedData_known result (k, s) v Hs Hv) as G.
      cbn [fst] in G. now rewrite G.
    + destruct (existsb (String.eqb k) ["chains"; "tokens"]) eqn:CT; [reflexivity |].
      exfalso. unfold recognized, knownKeys in R. cbn [existsb] in R, O, CT.
      repeat (apply orb_false_elim in O as [? O]).
      repeat (apply orb_false_elim in CT as [? CT]).
      rewrite (proj2 (String.eqb_neq k "chainIds") K1),
        (proj2 (String.eqb_neq k "tokenSymbols") K2) in R.
      repeat match goal with E : (k =? _) = false |- _ => rewrite E in R; clear E end.
      discriminate R.
  - rewrite MergeResults.own_unrecognized by exact R.
    assert (own k formatted = own k result) as ->.
    { apply Fo. simpl. intros [<- | [<- | [<- | [<- | []]]]]; discriminate R. }
    destruct (String.eqb_spec k "__proto__") as [-> | _];
      [now rewrite NP |].
    destruct (own k result) as [[] |] eqn:E; try reflexivity.
    now destruct (D k).
Qed.

End RoundTrip.

(** X17 at [{chains: ["base", 1], tokens: "USDC, DAI", amount: 3, memo: "x"}]. *)
Lemma serialized_preferences_validate_back_witness :
  exists out formatted out',
    PreferencesSchema (host := Example.host)
      (VObj [("chains", VArr [VStr "base"; VNum (int 1)]);
             ("tokens", VStr "USDC, DAI");
             ("amount", VNum (int 3)); ("memo", VStr "x")])
    = Ok out
    /\ formatPreferences (host := Example.host) (props out) = Return formatted
    /\ PreferencesSchema (host := Example.host) (VObj formatted) = Ok out'
    /\ forall k, k <> "chainIds" -> k <> "tokenSymbols" ->
                 own k (props out') = own k (props out).
Proof.
  assert (forall name, In name ["eth"; "oeth"; "pol"; "gno"; "arb1"; "base"] ->
            isNaN (Number_of_string (Host := Example.host) name) = true) as NaNs.
  { intros name Hin. simpl in Hin.
    repeat (destruct Hin as [<- | Hin]; [vm_compute; reflexivity |]). contradiction. }
  assert (PreferencesSchema (host := Example.host)
            (VObj [("chains", VArr [VStr "base"; VNum (int 1)]);
                   ("tokens", VStr "USDC, DAI");
                   ("amount", VNum (int 3)); ("memo", VStr "x")])
          = Ok (VObj [("chainIds", VArr [VNum (int 8453); VNum (int 1)]);
                      ("tokenSymbols", VArr [VStr "USDC"; VStr "DAI"]);
                      ("amount", VNum (int 3)); ("memo", VStr "x")]))
    as H by (vm_compute; reflexivity).
  destruct (serialized_preferences_validate_back (host := Example.host) NaNs _ _ H)
    as [formatted [out' [ids [ids' [symbols [F [V [_ [_ [_ [_ [_ [_ [_ Same]]]]]]]]]]]]]].
  eexists; exists formatted, out'.
  split; [exact H |]. split; [exact F |]. split; [exact V | exact Same].
Defined.

End SerializeValidate.
